(** * Whiteboard: a shallow embedding of [js/app.js]

    The controller of the page is the class [Whiteboard].  Its methods are
    event handlers that run to completion one after the other, so each of
    them is embedded as a function from the state before the handler to the
    state after it.

    What the class reaches through the browser is made explicit:
    - the pixels of the canvas are a [Raster], the sequence of drawing calls
      applied to the buffer since it was last cleared (equal sequences give
      equal pixels; the scenarios below paint strokes and text of visible
      extent, so that their different sequences show different pixels);
    - [canvas.toDataURL()] is a lossless encoding, [Png];
    - [new Image(); img.src = ...; img.onload = ...] does not draw when it is
      called: the image joins the [loading] images, and the
      callback runs later, as an event of its own ([onload]);
    - [canvas.getBoundingClientRect()] is the field [rect];
    - the overlay elements appended to [document.body] are the field [body],
      and the one of them that holds the focus of the document, if any, is
      the field [focus].

    Coordinates and widths are integers (CSS pixels).  The size of the buffer
    is not part of a [Raster]: the resize listener is embedded for what it
    does to the state, and nothing is said of the pixels that a decode paints
    after a resize. *)

From Stdlib Require Import ZArith List String Bool Arith Lia.
Import ListNotations.
Open Scope string_scope.
Open Scope list_scope.

(** ** Arrays used as stacks: [Array.prototype.push] and [pop] *)

Section JsArray.
Context {A : Type}.

Definition push (a : list A) (x : A) : list A := a ++ [x].

(** [pop a] is the last element and the array without it; [None] stands for
    the [undefined] that an empty array gives. *)
Fixpoint pop (a : list A) : option (A * list A) :=
  match a with
  | [] => None
  | x :: r =>
      match pop r with
      | None => Some (x, [])
      | Some (t, r') => Some (t, x :: r')
      end
  end.
End JsArray.

(** ** The drawing surface *)

(** A colour, written as the picker gives it, whatever serialisation the
    browser keeps of it. *)
Definition Color := string.

Record Font := { font_px : Z; font_family : string }.

Definition Point := (Z * Z)%type.

(** The current path of a 2D context: its sub-paths, oldest first. *)
Definition Path := list (list Point).

Inductive PaintOp :=
| StrokePath (p : Path) (style : Color) (width : Z)
| FillText (text : string) (x y : Z) (f : Font) (style : Color).

Definition Raster := list PaintOp.

Definition blank : Raster := [].

Inductive DataURL := Png (r : Raster).

Definition toDataURL (r : Raster) : DataURL := Png r.

Definition decode (d : DataURL) : Raster := match d with Png r => r end.

Record Context2D := {
  strokeStyle : Color;
  lineWidth : Z;
  font : Font;
  fillStyle : Color;
  path : Path
}.

Definition set_strokeStyle (v : Color) (c : Context2D) : Context2D :=
  {| strokeStyle := v; lineWidth := lineWidth c; font := font c;
     fillStyle := fillStyle c; path := path c |}.

(** The setter of [lineWidth] ignores values that are not positive. *)
Definition set_lineWidth (v : Z) (c : Context2D) : Context2D :=
  if (0 <? v)%Z then
    {| strokeStyle := strokeStyle c; lineWidth := v; font := font c;
       fillStyle := fillStyle c; path := path c |}
  else c.

Definition set_font (v : Font) (c : Context2D) : Context2D :=
  {| strokeStyle := strokeStyle c; lineWidth := lineWidth c; font := v;
     fillStyle := fillStyle c; path := path c |}.

Definition set_fillStyle (v : Color) (c : Context2D) : Context2D :=
  {| strokeStyle := strokeStyle c; lineWidth := lineWidth c; font := font c;
     fillStyle := v; path := path c |}.

Definition set_path (v : Path) (c : Context2D) : Context2D :=
  {| strokeStyle := strokeStyle c; lineWidth := lineWidth c; font := font c;
     fillStyle := fillStyle c; path := v |}.

Definition beginPath (c : Context2D) : Context2D := set_path [] c.

Definition moveTo (x y : Z) (c : Context2D) : Context2D :=
  set_path (path c ++ [[(x, y)]]) c.

(** [extend p q] adds the point [q] to the last sub-path of [p]; with no
    sub-path yet, [lineTo] starts one at [q]. *)
Fixpoint extend (p : Path) (q : Point) : Path :=
  match p with
  | [] => [[q]]
  | [sub] => [sub ++ [q]]
  | sub :: rest => sub :: extend rest q
  end.

Definition lineTo (x y : Z) (c : Context2D) : Context2D :=
  set_path (extend (path c) (x, y)) c.

(** [stroke] paints the whole current path with the current style. *)
Definition stroke (c : Context2D) (r : Raster) : Raster :=
  r ++ [StrokePath (path c) (strokeStyle c) (lineWidth c)].

Definition fillText (text : string) (x y : Z) (c : Context2D) (r : Raster)
  : Raster :=
  r ++ [FillText text x y (font c) (fillStyle c)].

(** [clearRect(0, 0, canvas.width, canvas.height)]: the whole buffer. *)
Definition clearRect (r : Raster) : Raster := blank.

(** [drawImage(img, 0, 0)]: the image is painted over what is there. *)
Definition drawImage (img : DataURL) (r : Raster) : Raster := r ++ decode img.

Definition ctx0 : Context2D :=
  {| strokeStyle := "#000000"; lineWidth := 1;
     font := {| font_px := 10; font_family := "sans-serif" |};
     fillStyle := "#000000"; path := [] |}.

(** ** The state of the controller and of the page around it *)

(** The [<input>] overlay of the text tool: the element's identity and the
    properties that the class sets and reads. *)
Record TextInput := {
  node : nat;
  style_left : Z;
  style_top : Z;
  style_color : Color;
  style_font : Font;
  value : string
}.

Record Rect := { rect_left : Z; rect_top : Z }.

Record MouseEvent := { clientX : Z; clientY : Z }.

Record Whiteboard := {
  canvas : Raster;
  ctx : Context2D;
  isDrawing : bool;
  currentTool : string;
  history : list DataURL;
  redoHistory : list DataURL;
  textInput : option TextInput;
  (* the page *)
  rect : Rect;
  loading : list DataURL;
  body : list nat;
  focus : option nat;
  created : nat
}.

Definition set_canvas (v : Raster) (s : Whiteboard) : Whiteboard :=
  {| canvas := v; ctx := ctx s; isDrawing := isDrawing s;
     currentTool := currentTool s; history := history s;
     redoHistory := redoHistory s; textInput := textInput s;
     rect := rect s; loading := loading s; body := body s;
     focus := focus s; created := created s |}.

Definition set_ctx (v : Context2D) (s : Whiteboard) : Whiteboard :=
  {| canvas := canvas s; ctx := v; isDrawing := isDrawing s;
     currentTool := currentTool s; history := history s;
     redoHistory := redoHistory s; textInput := textInput s;
     rect := rect s; loading := loading s; body := body s;
     focus := focus s; created := created s |}.

Definition set_isDrawing (v : bool) (s : Whiteboard) : Whiteboard :=
  {| canvas := canvas s; ctx := ctx s; isDrawing := v;
     currentTool := currentTool s; history := history s;
     redoHistory := redoHistory s; textInput := textInput s;
     rect := rect s; loading := loading s; body := body s;
     focus := focus s; created := created s |}.

Definition set_currentTool (v : string) (s : Whiteboard) : Whiteboard :=
  {| canvas := canvas s; ctx := ctx s; isDrawing := isDrawing s;
     currentTool := v; history := history s;
     redoHistory := redoHistory s; textInput := textInput s;
     rect := rect s; loading := loading s; body := body s;
     focus := focus s; created := created s |}.

Definition set_history (v : list DataURL) (s : Whiteboard) : Whiteboard :=
  {| canvas := canvas s; ctx := ctx s; isDrawing := isDrawing s;
     currentTool := currentTool s; history := v;
     redoHistory := redoHistory s; textInput := textInput s;
     rect := rect s; loading := loading s; body := body s;
     focus := focus s; created := created s |}.

Definition set_redoHistory (v : list DataURL) (s : Whiteboard) : Whiteboard :=
  {| canvas := canvas s; ctx := ctx s; isDrawing := isDrawing s;
     currentTool := currentTool s; history := history s;
     redoHistory := v; textInput := textInput s;
     rect := rect s; loading := loading s; body := body s;
     focus := focus s; created := created s |}.

Definition set_textInput (v : option TextInput) (s : Whiteboard) : Whiteboard :=
  {| canvas := canvas s; ctx := ctx s; isDrawing := isDrawing s;
     currentTool := currentTool s; history := history s;
     redoHistory := redoHistory s; textInput := v;
     rect := rect s; loading := loading s; body := body s;
     focus := focus s; created := created s |}.

Definition set_loading (v : list DataURL) (s : Whiteboard) : Whiteboard :=
  {| canvas := canvas s; ctx := ctx s; isDrawing := isDrawing s;
     currentTool := currentTool s; history := history s;
     redoHistory := redoHistory s; textInput := textInput s;
     rect := rect s; loading := v; body := body s;
     focus := focus s; created := created s |}.

Definition set_body (v : list nat) (s : Whiteboard) : Whiteboard :=
  {| canvas := canvas s; ctx := ctx s; isDrawing := isDrawing s;
     currentTool := currentTool s; history := history s;
     redoHistory := redoHistory s; textInput := textInput s;
     rect := rect s; loading := loading s; body := v;
     focus := focus s; created := created s |}.

Definition set_created (v : nat) (s : Whiteboard) : Whiteboard :=
  {| canvas := canvas s; ctx := ctx s; isDrawing := isDrawing s;
     currentTool := currentTool s; history := history s;
     redoHistory := redoHistory s; textInput := textInput s;
     rect := rect s; loading := loading s; body := body s;
     focus := focus s; created := v |}.

Definition set_focus (v : option nat) (s : Whiteboard) : Whiteboard :=
  {| canvas := canvas s; ctx := ctx s; isDrawing := isDrawing s;
     currentTool := currentTool s; history := history s;
     redoHistory := redoHistory s; textInput := textInput s;
     rect := rect s; loading := loading s; body := body s;
     focus := v; created := created s |}.

(** The constructor, on a page whose canvas sits at [r]: a fresh canvas is
    blank, its context has the default styles, and [redrawFromHistory] does
    nothing on an empty history. *)
Definition init (r : Rect) : Whiteboard :=
  {| canvas := blank; ctx := ctx0; isDrawing := false;
     currentTool := "pencil"; history := []; redoHistory := [];
     textInput := None;
     rect := r; loading := []; body := []; focus := None; created := 0 |}.

(** ** The methods of the class *)

Definition saveState (s : Whiteboard) : Whiteboard :=
  let s := set_history (push (history s) (toDataURL (canvas s))) s in
  set_redoHistory [] s.

(** [redrawFromData] only starts the decoding of the image. *)
Definition redrawFromData (dataUrl : DataURL) (s : Whiteboard) : Whiteboard :=
  set_loading (loading s ++ [dataUrl]) s.

Fixpoint drop_nth {A : Type} (i : nat) (l : list A) : list A :=
  match l, i with
  | [], _ => []
  | _ :: r, O => r
  | x :: r, S j => x :: drop_nth j r
  end.

(** The [onload] callback of the [i]-th image that is being decoded.  The
    page does not order these callbacks: any pending image may finish next. *)
Definition onload (i : nat) (s : Whiteboard) : Whiteboard :=
  match nth_error (loading s) i with
  | None => s
  | Some img =>
      let s := set_loading (drop_nth i (loading s)) s in
      let s := set_canvas (clearRect (canvas s)) s in
      set_canvas (drawImage img (canvas s)) s
  end.

Definition undo (s : Whiteboard) : Whiteboard :=
  if (0 <? List.length (history s))%nat then
    let s := set_redoHistory (push (redoHistory s) (toDataURL (canvas s))) s in
    match pop (history s) with
    | Some (top, rest) => redrawFromData top (set_history rest s)
    | None => s
    end
  else s.

Definition redo (s : Whiteboard) : Whiteboard :=
  if (0 <? List.length (redoHistory s))%nat then
    let s := set_history (push (history s) (toDataURL (canvas s))) s in
    match pop (redoHistory s) with
    | Some (top, rest) => redrawFromData top (set_redoHistory rest s)
    | None => s
    end
  else s.

(** [this.textInput.remove()] on an overlay that does not hold the focus:
    the element leaves the document and no event is fired. *)
Definition remove_node (n : nat) (s : Whiteboard) : Whiteboard :=
  set_body (filter (fun m => negb (m =? n)%nat) (body s)) s.

(** A string is truthy when it is not empty. *)
Definition truthy (v : string) : bool :=
  match v with EmptyString => false | String _ _ => true end.

(** The body of the first [if] of [commitText]: the text of the overlay
    [el] is painted where the overlay was recorded, taken from the corner of
    the canvas, and the state is saved. *)
Definition renderText (el : TextInput) (s : Whiteboard) : Whiteboard :=
  let x := (style_left el - rect_left (rect s))%Z in
  let y := (style_top el - rect_top (rect s))%Z in
  let s := set_ctx (set_font (style_font el) (ctx s)) s in
  let s := set_ctx (set_fillStyle (style_color el) (ctx s)) s in
  let s := set_canvas (fillText (value el) x y (ctx s) (canvas s)) s in
  saveState s.

(** The first [if] of [commitText]. *)
Definition paintText (s : Whiteboard) : Whiteboard :=
  match textInput s with
  | Some el => if truthy (value el) then renderText el s else s
  | None => s
  end.

(** Whether the overlay [el] holds the focus of the document. *)
Definition focused (el : TextInput) (s : Whiteboard) : bool :=
  match focus s with
  | Some n => (n =? node el)%nat
  | None => false
  end.

(** [commitText] as the [blur] listener runs it: the overlay has lost the
    focus, so that its [remove()] fires nothing. *)
Definition commitText_blurred (s : Whiteboard) : Whiteboard :=
  let s := paintText s in
  match textInput s with
  | Some el => set_textInput None (remove_node (node el) s)
  | None => s
  end.

(** [commitText].  On an overlay that holds the focus, [remove()] takes the
    focus away and fires [blur] before the element is detached.  The
    listener of [blur] is [commitText] again, and [this.textInput] is not
    null yet: the text is painted and saved a second time, and it is the
    listener that detaches the element and nulls the field.  Back in the
    outer [remove()] the element is no longer a child of the document:
    [remove()] throws, and the assignment that follows it is not reached. *)
Definition commitText (s : Whiteboard) : Whiteboard :=
  let s := paintText s in
  match textInput s with
  | Some el =>
      if focused el s then commitText_blurred (set_focus None s)
      else set_textInput None (remove_node (node el) s)
  | None => s
  end.

(** Whether [commitText] ends with the exception of [remove()]. *)
Definition commitText_throws (s : Whiteboard) : bool :=
  match textInput s with
  | Some el => focused el s
  | None => false
  end.

(** When the commit of the overlay that is open throws, the exception
    leaves [addTextInput] too, and no overlay is created.  Otherwise the new
    overlay is appended to the document and given the focus. *)
Definition addTextInput (x y : Z) (s : Whiteboard) : Whiteboard :=
  let thrown :=
    match textInput s with Some _ => commitText_throws s | None => false end in
  let s := match textInput s with Some _ => commitText s | None => s end in
  if thrown then s
  else
    let el :=
      {| node := created s;
         style_left := x; style_top := y;
         style_color := strokeStyle (ctx s);
         style_font :=
           {| font_px := (lineWidth (ctx s) * 5)%Z; font_family := "Arial" |};
         value := "" |} in
    let s := set_created (S (created s)) s in
    let s := set_textInput (Some el) s in
    let s := set_body (body s ++ [node el]) s in
    set_focus (Some (node el)) s.

Definition startDrawing (e : MouseEvent) (s : Whiteboard) : Whiteboard :=
  let s := set_isDrawing true s in
  let x := (clientX e - rect_left (rect s))%Z in
  let y := (clientY e - rect_top (rect s))%Z in
  if (currentTool s =? "text")%string then addTextInput x y s
  else
    let s := set_ctx (beginPath (ctx s)) s in
    set_ctx (moveTo x y (ctx s)) s.

Definition draw (e : MouseEvent) (s : Whiteboard) : Whiteboard :=
  if negb (isDrawing s) then s
  else
    let x := (clientX e - rect_left (rect s))%Z in
    let y := (clientY e - rect_top (rect s))%Z in
    let s :=
      if (currentTool s =? "eraser")%string
      then set_ctx (set_strokeStyle "#f0f0f0" (ctx s)) s
      else s in
    let s := set_ctx (lineTo x y (ctx s)) s in
    set_canvas (stroke (ctx s) (canvas s)) s.

Definition stopDrawing (s : Whiteboard) : Whiteboard :=
  if isDrawing s then saveState (set_isDrawing false s) else s.

(** [confirmed] is the answer of the [confirm] prompt. *)
Definition clearCanvas (confirmed : bool) (s : Whiteboard) : Whiteboard :=
  if confirmed then saveState (set_canvas (clearRect (canvas s)) s) else s.

(** The user edits the content of the live overlay. *)
Definition typeText (v : string) (s : Whiteboard) : Whiteboard :=
  match textInput s with
  | Some el =>
      set_textInput
        (Some {| node := node el; style_left := style_left el;
                 style_top := style_top el; style_color := style_color el;
                 style_font := style_font el; value := v |}) s
  | None => s
  end.

(** ** The listeners installed by [setupEventListeners], [setupTools] and
    [addTextInput] *)

Inductive Event :=
| MouseDown (e : MouseEvent)
| MouseMove (e : MouseEvent)
| MouseUp
| MouseOut
| ToolClick (id : string)
| ColorChange (v : Color)
| WidthChange (v : Z)
| UndoClick
| RedoClick
| ClearClick (confirmed : bool)
| Typed (v : string)
| KeyDown (key : string)
| Blur
| ImageLoad (i : nat).

(** One event of the page.  The colour picker hands over a valid colour, so
    the setter of [strokeStyle] takes it; the touch listeners re-dispatch
    mouse events and add no case of their own; [Typed] is the user's edit of
    the overlay, [KeyDown] a key pressed in it while it holds the focus,
    [Blur] the focus leaving it, upon which its listener runs, and
    [ImageLoad i] the end of the decoding of a pending image. *)
Definition step (s : Whiteboard) (ev : Event) : Whiteboard :=
  match ev with
  | MouseDown e => startDrawing e s
  | MouseMove e => draw e s
  | MouseUp | MouseOut => stopDrawing s
  | ToolClick id => set_currentTool id s
  | ColorChange v => set_ctx (set_strokeStyle v (ctx s)) s
  | WidthChange v => set_ctx (set_lineWidth v (ctx s)) s
  | UndoClick => undo s
  | RedoClick => redo s
  | ClearClick confirmed => clearCanvas confirmed s
  | Typed v => typeText v s
  | KeyDown key => if (key =? "Enter")%string then commitText s else s
  | Blur => commitText (set_focus None s)
  | ImageLoad i => onload i s
  end.

Definition run (s : Whiteboard) (evs : list Event) : Whiteboard :=
  fold_left step evs s.

(** ** Strokes and decode schedules *)

(** A completed stroke: the tool is chosen, the pointer goes down, moves, and
    the stroke ends with [mouseup] or with [mouseout]. *)
Record Stroke := {
  st_tool : string;
  st_down : MouseEvent;
  st_moves : list MouseEvent;
  st_leaves : bool
}.

Definition stroke_events (k : Stroke) : list Event :=
  ToolClick (st_tool k) :: MouseDown (st_down k)
    :: map MouseMove (st_moves k)
    ++ [if st_leaves k then MouseOut else MouseUp].

Definition strokes (ks : list Stroke) : list Event :=
  List.concat (map stroke_events ks).

(** [decoded n s]: the [n] oldest pending images finish, in the order in
    which they were requested. *)
Fixpoint decoded (n : nat) (s : Whiteboard) : Whiteboard :=
  match n with
  | O => s
  | S m => decoded m (onload 0 s)
  end.

(** Every pending image finishes, in the order of the requests. *)
Definition settle (s : Whiteboard) : Whiteboard :=
  decoded (List.length (loading s)) s.

(** The document shows the live overlay and no other. *)
Definition overlay_shown (s : Whiteboard) : Prop :=
  body s = match textInput s with Some el => [node el] | None => [] end.

(** ** Scenarios *)

Definition page : Rect := {| rect_left := 8; rect_top := 70 |}.

Definition at_ (x y : Z) : MouseEvent := {| clientX := x; clientY := y |}.

Definition pencil_line : Stroke :=
  {| st_tool := "pencil"; st_down := at_ 20 100;
     st_moves := [at_ 30 110]; st_leaves := false |}.

Definition pencil_bar : Stroke :=
  {| st_tool := "pencil"; st_down := at_ 40 100;
     st_moves := [at_ 40 150; at_ 45 150]; st_leaves := true |}.

Definition eraser_rub : Stroke :=
  {| st_tool := "eraser"; st_down := at_ 58 130;
     st_moves := [at_ 60 130]; st_leaves := false |}.

(** One black pencil stroke of width 2 on the fresh board. *)
Definition one_stroke : Whiteboard :=
  run (init page) (WidthChange 2 :: stroke_events pencil_line).

(** Two strokes, then one undo whose image has been decoded. *)
Definition after_undo : Whiteboard :=
  run (init page)
      (strokes [pencil_line; pencil_bar] ++ [UndoClick; ImageLoad 0]).

(** The text tool with ["Hi"] typed into the overlay opened at (58, 130). *)
Definition typing_hi : Whiteboard :=
  run (init page)
      [ColorChange "#ff0000"; ToolClick "text"; MouseDown (at_ 58 130);
       MouseUp; Typed "Hi"].

(** The same overlay, left empty. *)
Definition typing_nothing : Whiteboard :=
  run (init page) [ToolClick "text"; MouseDown (at_ 58 130); MouseUp].

(** A stroke under way. *)
Definition mid_stroke : Whiteboard :=
  run (init page) [MouseDown (at_ 20 100); MouseMove (at_ 30 110)].

(** ** The rest of the page: resize, export, touch *)

Definition set_rect (v : Rect) (s : Whiteboard) : Whiteboard :=
  {| canvas := canvas s; ctx := ctx s; isDrawing := isDrawing s;
     currentTool := currentTool s; history := history s;
     redoHistory := redoHistory s; textInput := textInput s;
     rect := v; loading := loading s; body := body s;
     focus := focus s; created := created s |}.

(** [this.history[this.history.length - 1]] is read, not popped. *)
Definition redrawFromHistory (s : Whiteboard) : Whiteboard :=
  if (0 <? List.length (history s))%nat then
    match nth_error (history s) (List.length (history s) - 1) with
    | Some top => redrawFromData top s
    | None => s
    end
  else s.

(** The [resize] listener, when the layout has put the canvas at [r].
    Assigning [canvas.width] and [canvas.height] gives a blank buffer and
    puts the context back to its default state. *)
Definition resizeCanvas (r : Rect) (s : Whiteboard) : Whiteboard :=
  let s := set_rect r s in
  let s := set_canvas blank s in
  let s := set_ctx ctx0 s in
  redrawFromHistory s.

(** What [saveCanvas] hands to the browser: the link it clicks. *)
Record Download := { download : string; href : DataURL }.

Definition saveCanvas (s : Whiteboard) : Download :=
  {| download := "whiteboard.png"; href := toDataURL (canvas s) |}.

(** A touch event: the points of contact, each with [clientX], [clientY]. *)
Record TouchEvent := { touches : list MouseEvent }.

(** [touchstart] and [touchmove] dispatch a mouse event at [touches[0]];
    with no touch at all, reading [touch.clientX] throws and nothing is
    dispatched. *)
Definition touchstart (e : TouchEvent) (s : Whiteboard) : Whiteboard :=
  match touches e with
  | touch :: _ =>
      startDrawing {| clientX := clientX touch; clientY := clientY touch |} s
  | [] => s
  end.

Definition touchmove (e : TouchEvent) (s : Whiteboard) : Whiteboard :=
  match touches e with
  | touch :: _ =>
      draw {| clientX := clientX touch; clientY := clientY touch |} s
  | [] => s
  end.

Definition touchend (s : Whiteboard) : Whiteboard := stopDrawing s.

Inductive PageEvent :=
| Ui (ev : Event)
| Resize (r : Rect)
| TouchStart (e : TouchEvent)
| TouchMove (e : TouchEvent)
| TouchEnd
| SaveClick.

(** [saveCanvas] writes nothing to the controller or to the canvas. *)
Definition page_step (s : Whiteboard) (pe : PageEvent) : Whiteboard :=
  match pe with
  | Ui ev => step s ev
  | Resize r => resizeCanvas r s
  | TouchStart e => touchstart e s
  | TouchMove e => touchmove e s
  | TouchEnd => touchend s
  | SaveClick => s
  end.

Definition page_run (s : Whiteboard) (pes : list PageEvent) : Whiteboard :=
  fold_left page_step pes s.

(** ** Vocabulary of the further properties *)

(** What the commit of the overlay [el] paints on a canvas at [r]. *)
Definition text_paint (el : TextInput) (r : Rect) : PaintOp :=
  FillText (value el)
    (style_left el - rect_left r) (style_top el - rect_top r)
    (style_font el) (style_color el).

(** The point of the canvas under the pointer. *)
Definition rel (r : Rect) (e : MouseEvent) : Point :=
  ((clientX e - rect_left r)%Z, (clientY e - rect_top r)%Z).

(** One paint per pointer move: the path so far, stroked again. *)
Fixpoint segments (done todo : list Point) (col : Color) (w : Z) : Raster :=
  match todo with
  | [] => []
  | q :: rest => StrokePath [done ++ [q]] col w :: segments (done ++ [q]) rest col w
  end.

(** The colour a stroke is painted with. *)
Definition ink (tool : string) (c : Context2D) : Color :=
  if (tool =? "eraser")%string then "#f0f0f0" else strokeStyle c.

(** A click on undo, or on redo, and the end of every pending decode. *)
Definition undo_shown (s : Whiteboard) : Whiteboard := settle (undo s).

Definition redo_shown (s : Whiteboard) : Whiteboard := settle (redo s).

(** Events that neither clear the canvas nor paint an image over it. *)
Definition keeps_paint (pe : PageEvent) : bool :=
  match pe with
  | Ui (ClearClick true) | Ui (ImageLoad _) | Resize _ => false
  | _ => true
  end.

(** Pointer events that mean nothing when no stroke is under way. *)
Definition idle (pe : PageEvent) : bool :=
  match pe with
  | Ui (MouseMove _) | Ui MouseUp | Ui MouseOut | TouchMove _ | TouchEnd
  | SaveClick => true
  | _ => false
  end.

(** A touch event given by its first point of contact and the others. *)
Definition fingers (f : MouseEvent * list MouseEvent) : TouchEvent :=
  {| touches := fst f :: snd f |}.

(** Two strokes on the fresh board, nothing pending. *)
Definition two_strokes : Whiteboard :=
  run (init page) (strokes [pencil_line; pencil_bar]).

(** The text tool chosen on the fresh board, red selected. *)
Definition text_tool : Whiteboard :=
  run (init page) [ColorChange "#ff0000"; WidthChange 4; ToolClick "text"].

(** ** Stacks *)

Section StackFacts.
Context {A : Type}.
Implicit Types (a r : list A) (x t : A).

Lemma pop_push a x : pop (push a x) = Some (x, a).
Proof.
  unfold push. induction a as [|y a IH]; simpl.
  - reflexivity.
  - rewrite IH. reflexivity.
Qed.

Lemma pop_nonempty a : a <> [] -> exists t r, pop a = Some (t, r).
Proof.
  destruct a as [|y a]; [congruence|]. intros _. simpl.
  destruct (pop a) as [[t r]|]; eauto.
Qed.

Lemma pop_inv a t r : pop a = Some (t, r) -> a = push r t.
Proof.
  revert t r. induction a as [|y a IH]; simpl; intros t r H.
  - discriminate.
  - destruct (pop a) as [[t' r']|] eqn:E.
    + inversion H; subst. rewrite (IH _ _ eq_refl). reflexivity.
    + inversion H; subst. destruct a as [|z a]; [reflexivity|].
      simpl in E. destruct (pop a) as [[? ?]|]; discriminate.
Qed.

Lemma length_push a x : List.length (push a x) = S (List.length a).
Proof. unfold push. rewrite length_app. simpl. lia. Qed.

Lemma length_pop a t r :
  pop a = Some (t, r) -> List.length a = S (List.length r).
Proof. intros H. rewrite (pop_inv _ _ _ H). apply length_push. Qed.

Lemma nonempty_ltb a : a <> [] -> (0 <? List.length a)%nat = true.
Proof. destruct a; [congruence|reflexivity]. Qed.
End StackFacts.

(** ** What each method leaves alone *)

Lemma run_app s evs evs' : run s (evs ++ evs') = run (run s evs) evs'.
Proof. apply fold_left_app. Qed.

Lemma saveState_history s :
  history (saveState s) = push (history s) (toDataURL (canvas s)).
Proof. reflexivity. Qed.

Lemma saveState_redoHistory s : redoHistory (saveState s) = [].
Proof. reflexivity. Qed.

Lemma saveState_canvas s : canvas (saveState s) = canvas s.
Proof. reflexivity. Qed.

Lemma redo_noop s : redoHistory s = [] -> redo s = s.
Proof. intros H. unfold redo. rewrite H. reflexivity. Qed.

Lemma undo_noop s : history s = [] -> undo s = s.
Proof. intros H. unfold undo. rewrite H. reflexivity. Qed.

Lemma draw_keeps s e :
  isDrawing (draw e s) = isDrawing s
  /\ history (draw e s) = history s
  /\ redoHistory (draw e s) = redoHistory s.
Proof.
  unfold draw. destruct (isDrawing s) eqn:D; simpl; [|auto].
  destruct (currentTool s =? "eraser"); simpl; auto.
Qed.

Lemma moves_keep ms : forall s,
  isDrawing (run s (map MouseMove ms)) = isDrawing s
  /\ history (run s (map MouseMove ms)) = history s
  /\ redoHistory (run s (map MouseMove ms)) = redoHistory s.
Proof.
  induction ms as [|m ms IH]; intros s; simpl; [auto|].
  destruct (IH (draw m s)) as (I & H & R).
  destruct (draw_keeps s m) as (I' & H' & R').
  rewrite I, H, R. auto.
Qed.

Lemma startDrawing_stroke s e :
  currentTool s <> "text" ->
  isDrawing (startDrawing e s) = true
  /\ history (startDrawing e s) = history s
  /\ redoHistory (startDrawing e s) = redoHistory s.
Proof.
  intros T. unfold startDrawing. simpl.
  apply String.eqb_neq in T. rewrite T. simpl. auto.
Qed.

(** A completed stroke pushes exactly one snapshot and empties the redo
    stack, whatever the state it starts from. *)
Lemma stroke_commits s k :
  st_tool k <> "text" ->
  exists snap,
    history (run s (stroke_events k)) = push (history s) snap
    /\ redoHistory (run s (stroke_events k)) = [].
Proof.
  intros T. unfold stroke_events. simpl. rewrite run_app.
  set (s1 := startDrawing (st_down k) (set_currentTool (st_tool k) s)).
  destruct (startDrawing_stroke (set_currentTool (st_tool k) s) (st_down k) T)
    as (I & H & _). fold s1 in I, H. simpl in H.
  destruct (moves_keep (st_moves k) s1) as (I' & H' & _).
  set (s2 := run s1 (map MouseMove (st_moves k))) in *.
  exists (toDataURL (canvas s2)).
  assert (E : run s2 [if st_leaves k then MouseOut else MouseUp]
              = saveState (set_isDrawing false s2)).
  { destruct (st_leaves k); simpl; unfold stopDrawing;
      rewrite I', I; reflexivity. }
  rewrite E. simpl. rewrite H', H. auto.
Qed.

Lemma strokes_snoc ks k : strokes (ks ++ [k]) = strokes ks ++ stroke_events k.
Proof.
  unfold strokes. rewrite map_app, concat_app. cbn [map List.concat].
  rewrite app_nil_r. reflexivity.
Qed.

Lemma strokes_commit ks : forall s,
  Forall (fun k => st_tool k <> "text") ks ->
  List.length (history (run s (strokes ks)))
    = (List.length (history s) + List.length ks)%nat
  /\ (ks <> [] -> redoHistory (run s (strokes ks)) = []).
Proof.
  induction ks as [|k ks IH] using rev_ind; intros s F.
  - simpl. split; [lia|congruence].
  - apply Forall_app in F as [F Fk]. inversion Fk as [|? ? T _]; subst.
    rewrite strokes_snoc, run_app.
    destruct (stroke_commits (run s (strokes ks)) k T) as (snap & H & R).
    destruct (IH s F) as [L _].
    rewrite H, R, length_push, L, length_app. simpl. split; [lia|auto].
Qed.

(** ** Undo and redo, method by method *)

Lemma undo_pops s :
  history s <> [] ->
  exists top rest,
    history s = push rest top
    /\ undo s =
       redrawFromData top
         (set_history rest
            (set_redoHistory
               (push (redoHistory s) (toDataURL (canvas s))) s)).
Proof.
  intros H. destruct (pop_nonempty _ H) as (top & rest & P).
  exists top, rest. split; [apply pop_inv, P|].
  unfold undo. rewrite (nonempty_ltb _ H). simpl. rewrite P. reflexivity.
Qed.

Lemma redo_pops s :
  redoHistory s <> [] ->
  exists top rest,
    redoHistory s = push rest top
    /\ redo s =
       redrawFromData top
         (set_redoHistory rest
            (set_history (push (history s) (toDataURL (canvas s))) s)).
Proof.
  intros H. destruct (pop_nonempty _ H) as (top & rest & P).
  exists top, rest. split; [apply pop_inv, P|].
  unfold redo. rewrite (nonempty_ltb _ H). simpl. rewrite P. reflexivity.
Qed.

Lemma push_nonempty {A : Type} (a : list A) (x : A) : push a x <> [].
Proof. unfold push. destruct a; discriminate. Qed.

Lemma push_inj {A : Type} (a b : list A) (x y : A) :
  push a x = push b y -> a = b /\ x = y.
Proof. unfold push. intros H. apply app_inj_tail in H. exact H. Qed.

Lemma onload_keeps i s :
  history (onload i s) = history s
  /\ redoHistory (onload i s) = redoHistory s.
Proof. unfold onload. destruct (nth_error (loading s) i); auto. Qed.

Lemma decoded_keeps n : forall s,
  history (decoded n s) = history s
  /\ redoHistory (decoded n s) = redoHistory s.
Proof.
  induction n as [|n IH]; intros s; simpl; [auto|].
  destruct (IH (onload 0 s)) as [H R].
  destruct (onload_keeps 0 s) as [H' R']. rewrite H, R. auto.
Qed.

Lemma onload_first s img rest :
  loading s = img :: rest ->
  loading (onload 0 s) = rest /\ canvas (onload 0 s) = decode img.
Proof. intros L. unfold onload. rewrite L. simpl. auto. Qed.

(** When the decodes finish in request order, the canvas ends up showing the
    image that was requested last. *)
Lemma settle_shows_last l : forall s img,
  loading s = l ++ [img] -> canvas (settle s) = decode img.
Proof.
  unfold settle. induction l as [|x l IH]; intros s img L; rewrite L.
  - simpl. apply (onload_first s img []), L.
  - destruct (onload_first s x (l ++ [img]) L) as [L' _].
    specialize (IH (onload 0 s) img L'). rewrite L' in IH.
    simpl. exact IH.
Qed.

Lemma truthy_iff v : truthy v = true <-> v <> "".
Proof. destruct v; simpl; split; congruence. Qed.

Lemma remove_node_gone n s : ~ In n (body (remove_node n s)).
Proof.
  unfold remove_node. simpl. intros I. apply filter_In in I as [_ I].
  rewrite Nat.eqb_refl in I. discriminate.
Qed.

Lemma renderText_effect el s :
  canvas (renderText el s) = canvas s ++ [text_paint el (rect s)]
  /\ history (renderText el s)
     = push (history s) (toDataURL (canvas s ++ [text_paint el (rect s)]))
  /\ redoHistory (renderText el s) = []
  /\ textInput (renderText el s) = textInput s
  /\ body (renderText el s) = body s
  /\ focus (renderText el s) = focus s
  /\ rect (renderText el s) = rect s
  /\ isDrawing (renderText el s) = isDrawing s
  /\ path (ctx (renderText el s)) = path (ctx s).
Proof. repeat split. Qed.

Lemma paintText_filled s el :
  textInput s = Some el -> value el <> "" -> paintText s = renderText el s.
Proof.
  intros T V. apply truthy_iff in V. unfold paintText. rewrite T, V.
  reflexivity.
Qed.

Lemma paintText_empty s el :
  textInput s = Some el -> value el = "" -> paintText s = s.
Proof. intros T V. unfold paintText. rewrite T, V. reflexivity. Qed.

Lemma paintText_frame s :
  textInput (paintText s) = textInput s
  /\ body (paintText s) = body s
  /\ focus (paintText s) = focus s
  /\ rect (paintText s) = rect s
  /\ isDrawing (paintText s) = isDrawing s
  /\ path (ctx (paintText s)) = path (ctx s).
Proof.
  unfold paintText. destruct (textInput s) as [el|] eqn:E.
  - destruct (truthy (value el)); simpl; rewrite ?E; repeat split.
  - rewrite E. repeat split.
Qed.

(** What [paintText] adds: nothing is lost from the canvas or from History,
    and an empty RedoHistory stays empty. *)
Lemma paintText_grows s :
  (exists more, canvas (paintText s) = canvas s ++ more)
  /\ (exists more, history (paintText s) = history s ++ more)
  /\ (redoHistory s = [] -> redoHistory (paintText s) = []).
Proof.
  unfold paintText.
  assert (Z : (exists more, canvas s = canvas s ++ more)
              /\ (exists more, history s = history s ++ more)
              /\ (redoHistory s = [] -> redoHistory s = []))
    by (repeat split; try (exists []; symmetry; apply app_nil_r); auto).
  destruct (textInput s) as [el|]; [|exact Z].
  destruct (truthy (value el)); [|exact Z].
  repeat split; eexists; reflexivity.
Qed.

(** The state in which the overlay is detached: painted once, or twice when
    the overlay held the focus and [remove()] fired [blur]. *)
Lemma commitText_eq s :
  commitText s =
  match textInput s with
  | None => s
  | Some el =>
      set_textInput None
        (remove_node (node el)
           (if focused el s
            then paintText (set_focus None (paintText s))
            else paintText s))
  end.
Proof.
  unfold commitText.
  destruct (paintText_frame s) as (T & _ & F & _).
  rewrite T. destruct (textInput s) as [el|] eqn:E.
  - unfold focused. rewrite F. fold (focused el s).
    destruct (focused el s); [|reflexivity].
    unfold commitText_blurred.
    destruct (paintText_frame (set_focus None (paintText s))) as (T' & _).
    rewrite T'. simpl. rewrite T. reflexivity.
  - unfold paintText. rewrite E. reflexivity.
Qed.

Lemma commitText_none s : textInput s = None -> commitText s = s.
Proof. intros T. rewrite commitText_eq, T. reflexivity. Qed.

Lemma commitText_drops s : textInput (commitText s) = None.
Proof.
  rewrite commitText_eq. destruct (textInput s) eqn:T; [reflexivity|exact T].
Qed.

(** Whatever the path, [commitText] only adds to the canvas and to History,
    keeps an empty RedoHistory empty, and leaves the stroke in progress and
    the current path alone. *)
Lemma commitText_grows s :
  (exists more, canvas (commitText s) = canvas s ++ more)
  /\ (exists more, history (commitText s) = history s ++ more)
  /\ (redoHistory s = [] -> redoHistory (commitText s) = [])
  /\ isDrawing (commitText s) = isDrawing s
  /\ path (ctx (commitText s)) = path (ctx s).
Proof.
  rewrite commitText_eq. destruct (textInput s) as [el|].
  - simpl.
    destruct (paintText_grows s) as ([c1 C1] & [h1 H1] & R1).
    destruct (paintText_frame s) as (_ & _ & _ & _ & D1 & P1).
    destruct (focused el s).
    + destruct (paintText_grows (set_focus None (paintText s)))
        as ([c2 C2] & [h2 H2] & R2).
      destruct (paintText_frame (set_focus None (paintText s)))
        as (_ & _ & _ & _ & D2 & P2).
      simpl in *. rewrite C2, H2, C1, H1, D2, P2, D1, P1, <- !app_assoc.
      repeat split; eauto.
    + rewrite C1, H1, D1, P1. repeat split; eauto.
  - repeat split; try (exists []; symmetry; apply app_nil_r); auto.
Qed.

Lemma commitText_redo_cleared s el :
  textInput s = Some el -> value el <> "" -> redoHistory (commitText s) = [].
Proof.
  intros T V. rewrite commitText_eq, T. simpl.
  destruct (focused el s).
  - rewrite (paintText_filled (set_focus None (paintText s)) el); [reflexivity| |exact V].
    simpl. rewrite (proj1 (paintText_frame s)). exact T.
  - rewrite (paintText_filled s el T V). reflexivity.
Qed.

(** ** At most one overlay *)

Lemma commitText_overlay s :
  overlay_shown s ->
  textInput (commitText s) = None /\ body (commitText s) = [].
Proof.
  unfold overlay_shown. intros B. split; [apply commitText_drops|].
  rewrite commitText_eq. destruct (textInput s) as [el|] eqn:T; [|exact B].
  simpl.
  assert (E : body (if focused el s
                    then paintText (set_focus None (paintText s))
                    else paintText s) = body s).
  { destruct (focused el s).
    - rewrite (proj1 (proj2 (paintText_frame _))). simpl.
      apply (proj1 (proj2 (paintText_frame s))).
    - apply (proj1 (proj2 (paintText_frame s))). }
  rewrite E, B. simpl. rewrite Nat.eqb_refl. reflexivity.
Qed.

Lemma addTextInput_overlay x y s :
  overlay_shown s -> overlay_shown (addTextInput x y s).
Proof.
  intros B. unfold addTextInput.
  destruct (textInput s) as [el|] eqn:T.
  - destruct (commitText_overlay s B) as [T' B'].
    destruct (commitText_throws s).
    + unfold overlay_shown. rewrite T', B'. reflexivity.
    + unfold overlay_shown. simpl. rewrite B'. reflexivity.
  - unfold overlay_shown in *. rewrite T in B. simpl. rewrite B. reflexivity.
Qed.

Lemma step_overlay s ev : overlay_shown s -> overlay_shown (step s ev).
Proof.
  intros B. destruct ev as [e|e| | |id|v|v| | |ok|v|key| |i]; simpl.
  - unfold startDrawing. simpl.
    destruct (currentTool s =? "text"); [|exact B].
    apply addTextInput_overlay. exact B.
  - unfold draw. destruct (isDrawing s); [|exact B].
    destruct (currentTool s =? "eraser"); exact B.
  - unfold stopDrawing. destruct (isDrawing s); exact B.
  - unfold stopDrawing. destruct (isDrawing s); exact B.
  - exact B.
  - exact B.
  - exact B.
  - unfold undo. destruct (0 <? List.length (history s))%nat; [|exact B].
    simpl. destruct (pop (history s)) as [[top rest]|]; exact B.
  - unfold redo. destruct (0 <? List.length (redoHistory s))%nat; [|exact B].
    simpl. destruct (pop (redoHistory s)) as [[top rest]|]; exact B.
  - destruct ok; exact B.
  - unfold typeText, overlay_shown in *.
    destruct (textInput s) as [el|] eqn:T; simpl; [exact B|].
    rewrite T. exact B.
  - destruct (key =? "Enter"); [|exact B].
    destruct (commitText_overlay s B) as [T' B'].
    unfold overlay_shown. rewrite T', B'. reflexivity.
  - destruct (commitText_overlay (set_focus None s) B) as [T' B'].
    unfold overlay_shown. rewrite T', B'. reflexivity.
  - unfold onload. destruct (nth_error (loading s) i); exact B.
Qed.

(** Whatever the events, the document holds the live overlay and nothing
    else that the controller has created: never two overlays. *)
Lemma one_overlay r evs : overlay_shown (run (init r) evs).
Proof.
  unfold run. generalize (init r), (eq_refl : overlay_shown (init r)).
  induction evs as [|ev evs IH]; intros s B; simpl.
  - exact B.
  - apply IH, step_overlay, B.
Qed.

(** * The claims *)

(** C1: from the initial state, after any sequence of N completed strokes
    (drawn with tools other than the text tool, with no undo or redo in
    between), History has exactly N entries and RedoHistory is empty. *)
Theorem C1_strokes_fill_history (r : Rect) (ks : list Stroke) :
  Forall (fun k => st_tool k <> "text") ks ->
  List.length (history (run (init r) (strokes ks))) = List.length ks
  /\ redoHistory (run (init r) (strokes ks)) = [].
Proof.
  intros F. destruct (strokes_commit ks (init r) F) as [L R]. split.
  - exact L.
  - destruct ks as [|k ks]; [reflexivity|]. apply R. discriminate.
Qed.

Lemma C1_strokes_fill_history_witness :
  Forall (fun k => st_tool k <> "text") [pencil_line; eraser_rub; pencil_bar]
  /\ List.length
       (history (run (init page) (strokes [pencil_line; eraser_rub; pencil_bar])))
     = 3%nat
  /\ redoHistory (run (init page) (strokes [pencil_line; eraser_rub; pencil_bar]))
     = [].
Proof.
  assert (F : Forall (fun k => st_tool k <> "text")
                [pencil_line; eraser_rub; pencil_bar])
    by (repeat constructor; discriminate).
  split; [exact F|].
  exact (C1_strokes_fill_history page [pencil_line; eraser_rub; pencil_bar] F).
Defined.

(** C3: every committed mutation (the end of a stroke in progress, the
    commit of a non-empty text overlay, a confirmed clear) leaves RedoHistory
    empty, and a redo() issued right after it changes nothing. *)
Theorem C3_mutation_clears_redo (s : Whiteboard) :
  (isDrawing s = true ->
     redoHistory (stopDrawing s) = []
     /\ redo (stopDrawing s) = stopDrawing s)
  /\ (forall el, textInput s = Some el -> value el <> "" ->
        redoHistory (commitText s) = []
        /\ redo (commitText s) = commitText s)
  /\ (redoHistory (clearCanvas true s) = []
      /\ redo (clearCanvas true s) = clearCanvas true s).
Proof.
  split; [|split].
  - intros D.
    assert (R : redoHistory (stopDrawing s) = [])
      by (unfold stopDrawing; rewrite D; reflexivity).
    split; [exact R | apply redo_noop, R].
  - intros el T V.
    assert (R : redoHistory (commitText s) = [])
      by (apply (commitText_redo_cleared s el T V)).
    split; [exact R | apply redo_noop, R].
  - split; [reflexivity | apply redo_noop; reflexivity].
Qed.

Lemma C3_mutation_clears_redo_witness :
  (isDrawing mid_stroke = true
   /\ redoHistory (stopDrawing mid_stroke) = []
   /\ redo (stopDrawing mid_stroke) = stopDrawing mid_stroke)
  /\ (exists el, textInput typing_hi = Some el /\ value el <> ""
                 /\ redoHistory (commitText typing_hi) = []
                 /\ redo (commitText typing_hi) = commitText typing_hi).
Proof.
  split.
  - split; [reflexivity|].
    exact (proj1 (C3_mutation_clears_redo mid_stroke) eq_refl).
  - eexists. split; [reflexivity|]. split; [discriminate|].
    refine (proj1 (proj2 (C3_mutation_clears_redo typing_hi)) _ eq_refl _).
    discriminate.
Defined.

(** C5: undo() on an empty History leaves the canvas, History and RedoHistory
    (the whole state) unchanged, and so does redo() on an empty RedoHistory. *)
Theorem C5_empty_stack_noop (s : Whiteboard) :
  (history s = [] -> undo s = s) /\ (redoHistory s = [] -> redo s = s).
Proof. split; [apply undo_noop | apply redo_noop]. Qed.

Lemma C5_empty_stack_noop_witness :
  (history (init page) = [] /\ undo (init page) = init page)
  /\ (redoHistory one_stroke = [] /\ redo one_stroke = one_stroke).
Proof.
  split; (split; [reflexivity|]).
  - exact (proj1 (C5_empty_stack_noop (init page)) eq_refl).
  - exact (proj2 (C5_empty_stack_noop one_stroke) eq_refl).
Defined.

(** C9: a declined clear leaves the state (canvas, History, RedoHistory)
    unchanged; an accepted clear leaves the canvas blank and pushes one
    snapshot, that of the blank canvas, so History is one longer. *)
Theorem C9_clear (s : Whiteboard) :
  clearCanvas false s = s
  /\ canvas (clearCanvas true s) = blank
  /\ history (clearCanvas true s) = push (history s) (toDataURL blank)
  /\ List.length (history (clearCanvas true s)) = S (List.length (history s)).
Proof.
  split; [reflexivity|]. split; [reflexivity|]. split; [reflexivity|].
  simpl. apply length_push.
Qed.

(** C10: an undo() on a non-empty History and a redo() on a non-empty
    RedoHistory keep the sum of the two stacks' lengths. *)
Theorem C10_stack_sizes (s : Whiteboard) :
  (history s <> [] ->
     (List.length (history (undo s)) + List.length (redoHistory (undo s))
      = List.length (history s) + List.length (redoHistory s))%nat)
  /\ (redoHistory s <> [] ->
        (List.length (history (redo s)) + List.length (redoHistory (redo s))
         = List.length (history s) + List.length (redoHistory s))%nat).
Proof.
  split; intros H.
  - destruct (undo_pops s H) as (top & rest & E & U).
    rewrite U, E. simpl. rewrite !length_push. lia.
  - destruct (redo_pops s H) as (top & rest & E & U).
    rewrite U, E. simpl. rewrite !length_push. lia.
Qed.

Lemma C10_stack_sizes_witness :
  (history after_undo <> []
   /\ (List.length (history (undo after_undo))
       + List.length (redoHistory (undo after_undo))
       = List.length (history after_undo)
         + List.length (redoHistory after_undo))%nat)
  /\ (redoHistory after_undo <> []
      /\ (List.length (history (redo after_undo))
          + List.length (redoHistory (redo after_undo))
          = List.length (history after_undo)
            + List.length (redoHistory after_undo))%nat).
Proof.
  split; (split; [discriminate|]).
  - refine (proj1 (C10_stack_sizes after_undo) _). discriminate.
  - refine (proj2 (C10_stack_sizes after_undo) _). discriminate.
Defined.

(** C2 (as stated): on the board [after_undo], whose History is not empty and
    where no image is pending, undo() and then redo() followed by the two
    decodes, the one of the redo finishing first, leave a canvas that is not
    the one before the undo. *)
Lemma C2_out_of_order_decodes :
  history after_undo <> []
  /\ loading after_undo = []
  /\ loading (run after_undo [UndoClick; RedoClick; ImageLoad 1; ImageLoad 0])
     = []
  /\ canvas (run after_undo [UndoClick; RedoClick; ImageLoad 1; ImageLoad 0])
     <> canvas after_undo.
Proof.
  split; [discriminate|]. split; [reflexivity|]. split; [reflexivity|].
  discriminate.
Qed.

(** C2 (amended): in every state whose History is not empty, undo() followed
    by redo() with no mutation in between restores the canvas to the exact
    state it had before the undo, once the pending decodes have been applied
    in the order in which they were requested (however many of them finish
    between the two calls). *)
Theorem C2_undo_redo_in_order (s : Whiteboard) (k : nat) :
  history s <> [] ->
  canvas (settle (redo (decoded k (undo s)))) = canvas s.
Proof.
  intros H. destruct (undo_pops s H) as (top & rest & _ & U).
  set (s1 := decoded k (undo s)).
  assert (R1 : redoHistory s1 = push (redoHistory s) (toDataURL (canvas s))).
  { unfold s1. rewrite (proj2 (decoded_keeps k (undo s))), U. reflexivity. }
  assert (N : redoHistory s1 <> []) by (rewrite R1; apply push_nonempty).
  destruct (redo_pops s1 N) as (top' & rest' & E' & U').
  rewrite R1 in E'. apply push_inj in E' as [_ E']. subst top'.
  rewrite (settle_shows_last (loading s1) (redo s1) (toDataURL (canvas s))).
  - reflexivity.
  - rewrite U'. reflexivity.
Qed.

Lemma C2_undo_redo_in_order_witness :
  history after_undo <> []
  /\ canvas (settle (redo (decoded 0 (undo after_undo)))) = canvas after_undo
  /\ canvas (settle (redo (decoded 1 (undo after_undo)))) = canvas after_undo.
Proof.
  assert (H : history after_undo <> []) by discriminate.
  split; [exact H|]. split.
  - exact (C2_undo_redo_in_order after_undo 0 H).
  - exact (C2_undo_redo_in_order after_undo 1 H).
Defined.

(** ** Where the code departs from the claims *)

(** The snapshot that undo() pops right after a commit is the one of the
    canvas as it is: once decoded, the canvas shows what it showed. *)
Lemma undo_after_commit_shows_same (s : Whiteboard) :
  canvas (settle (undo (saveState s))) = canvas s.
Proof.
  unfold undo. rewrite saveState_history, length_push. simpl.
  rewrite pop_push.
  apply (settle_shows_last (loading s) _ (toDataURL (canvas s))).
  reflexivity.
Qed.

(** C4: on the fresh board, one pencil stroke (black, width 2) leaves History
    with one entry.  After undo() and its decode, RedoHistory has one entry
    but the canvas still shows the stroke: it is not blank.  After redo() and
    its decode the canvas shows the stroke, History has one entry and
    RedoHistory none. *)
Theorem C4_first_undo_keeps_the_stroke :
  history (init page) = [] /\ redoHistory (init page) = []
  /\ canvas (init page) = blank
  /\ List.length (history one_stroke) = 1%nat
  /\ canvas one_stroke = [StrokePath [[(12, 30); (22, 40)]%Z] "#000000" 2]
  /\ canvas (undo one_stroke) <> blank
  /\ canvas (run one_stroke [UndoClick; ImageLoad 0]) = canvas one_stroke
  /\ canvas (run one_stroke [UndoClick; ImageLoad 0]) <> blank
  /\ List.length (redoHistory (run one_stroke [UndoClick; ImageLoad 0])) = 1%nat
  /\ canvas (run one_stroke [UndoClick; ImageLoad 0; RedoClick; ImageLoad 0])
     = canvas one_stroke
  /\ List.length
       (history (run one_stroke [UndoClick; ImageLoad 0; RedoClick; ImageLoad 0]))
     = 1%nat
  /\ List.length
       (redoHistory
          (run one_stroke [UndoClick; ImageLoad 0; RedoClick; ImageLoad 0]))
     = 0%nat.
Proof.
  repeat (split; [first [reflexivity | discriminate]|]). reflexivity.
Qed.

(** With the text tool, [startDrawing] has already set [isDrawing] when it
    returns, so the [stopDrawing] that follows pushes a snapshot. *)
Lemma text_pointer_down_marks_drawing (s : Whiteboard) (e : MouseEvent) :
  currentTool s = "text" ->
  isDrawing (startDrawing e s) = true
  /\ path (ctx (startDrawing e s)) = path (ctx s)
  /\ history (stopDrawing (startDrawing e s))
     = push (history (startDrawing e s))
            (toDataURL (canvas (startDrawing e s))).
Proof.
  intros T.
  assert (I : isDrawing (startDrawing e s) = true
              /\ path (ctx (startDrawing e s)) = path (ctx s)).
  { unfold startDrawing. simpl. rewrite T. simpl.
    unfold addTextInput. simpl.
    destruct (textInput s) as [el|] eqn:E; simpl; [|auto].
    destruct (commitText_grows (set_isDrawing true s)) as (_ & _ & _ & D & P).
    destruct (commitText_throws (set_isDrawing true s)); simpl;
      rewrite ?D, ?P; auto. }
  destruct I as [I P]. split; [exact I|]. split; [exact P|].
  unfold stopDrawing. rewrite I. reflexivity.
Qed.

(** C6: with the text tool selected on the fresh board, a pointer-down at
    client (58, 130) opens the overlay at the canvas-relative point (50, 60)
    and begins no path, but [isDrawing] is set, and the pointer-up that
    follows pushes a snapshot onto the empty History. *)
Theorem C6_text_click_commits_snapshot :
  let s := run (init page) [ToolClick "text"; MouseDown (at_ 58 130)] in
  textInput s
  = Some {| node := 0; style_left := 50; style_top := 60;
            style_color := "#000000";
            style_font := {| font_px := 5; font_family := "Arial" |};
            value := "" |}
  /\ path (ctx s) = []
  /\ isDrawing s = true
  /\ history s = []
  /\ history (step s MouseUp) = [toDataURL blank].
Proof.
  repeat (split; [reflexivity|]). reflexivity.
Qed.

(** A move of the eraser overwrites the stroke colour of the context, and
    neither the end of the stroke nor the choice of another tool nor the next
    pointer-down brings the former colour back. *)
Lemma eraser_colour_stays (s : Whiteboard) (e e' : MouseEvent) (tool : string) :
  isDrawing s = true -> currentTool s = "eraser" -> tool <> "text" ->
  strokeStyle
    (ctx (run s [MouseMove e; MouseUp; ToolClick tool; MouseDown e']))
  = "#f0f0f0".
Proof.
  intros D T N. apply String.eqb_neq in N. simpl.
  unfold draw. rewrite D, T. simpl.
  unfold stopDrawing. simpl. rewrite D. simpl.
  unfold startDrawing. simpl. rewrite N. reflexivity.
Qed.

(** C7: with red selected, an eraser stroke followed by a pencil stroke: the
    pencil stroke is painted with the background colour ["#f0f0f0"], not with
    the selected red. *)
Theorem C7_pencil_after_eraser_paints_background :
  let s := run (init page)
               (ColorChange "#ff0000" :: strokes [eraser_rub; pencil_line]) in
  currentTool s = "pencil"
  /\ canvas s
     = [StrokePath [[(50, 60); (52, 60)]%Z] "#f0f0f0" 1;
        StrokePath [[(12, 30); (22, 40)]%Z] "#f0f0f0" 1]
  /\ strokeStyle (ctx s) <> "#ff0000".
Proof.
  split; [reflexivity|]. split; [reflexivity|]. discriminate.
Qed.

(** [commitText] from the listener of [blur], and from the listener of
    [keydown] while the overlay holds the focus. *)
Lemma blur_commit s el :
  textInput s = Some el ->
  step s Blur
  = set_textInput None
      (remove_node (node el) (paintText (set_focus None s))).
Proof. intros T. simpl. rewrite commitText_eq. simpl. rewrite T. reflexivity. Qed.

Lemma enter_commit s el :
  textInput s = Some el -> focus s = Some (node el) ->
  step s (KeyDown "Enter")
  = set_textInput None
      (remove_node (node el) (paintText (set_focus None (paintText s)))).
Proof.
  intros T F. simpl. rewrite commitText_eq, T. unfold focused.
  rewrite F, Nat.eqb_refl. reflexivity.
Qed.

(** C8: the overlay recorded at (50, 60) holds ["Hi"] and the focus, on a
    canvas whose corner is at (8, 70).  Its commit by the Enter key paints
    the text twice, at (42, -10), and pushes two snapshots, because
    [remove()] fires [blur] while [this.textInput] is still set; its commit
    by the loss of focus paints the text once, at (42, -10) too, and pushes
    one snapshot.  In both cases the overlay is gone; the empty overlay is
    removed with no paint and no snapshot. *)
Theorem C8_enter_commits_twice :
  textInput typing_hi
  = Some {| node := 0; style_left := 50; style_top := 60;
            style_color := "#ff0000";
            style_font := {| font_px := 5; font_family := "Arial" |};
            value := "Hi" |}
  /\ focus typing_hi = Some 0%nat
  /\ canvas typing_hi = blank
  /\ canvas (step typing_hi (KeyDown "Enter"))
     = [FillText "Hi" 42 (-10) {| font_px := 5; font_family := "Arial" |}
          "#ff0000";
        FillText "Hi" 42 (-10) {| font_px := 5; font_family := "Arial" |}
          "#ff0000"]
  /\ List.length (history (step typing_hi (KeyDown "Enter")))
     = (List.length (history typing_hi) + 2)%nat
  /\ textInput (step typing_hi (KeyDown "Enter")) = None
  /\ body (step typing_hi (KeyDown "Enter")) = []
  /\ canvas (step typing_hi Blur)
     = [FillText "Hi" 42 (-10) {| font_px := 5; font_family := "Arial" |}
          "#ff0000"]
  /\ List.length (history (step typing_hi Blur))
     = (List.length (history typing_hi) + 1)%nat
  /\ body (step typing_hi Blur) = []
  /\ canvas (step typing_nothing (KeyDown "Enter")) = canvas typing_nothing
  /\ history (step typing_nothing (KeyDown "Enter")) = history typing_nothing
  /\ body (step typing_nothing (KeyDown "Enter")) = [].
Proof.
  repeat (split; [reflexivity|]). reflexivity.
Qed.

(** * Further properties of the code *)

(** ** What a stroke paints *)

Lemma draw_paints s e done :
  isDrawing s = true -> path (ctx s) = [done] ->
  let s' := draw e s in
  canvas s'
  = canvas s ++
      [StrokePath [done ++ [rel (rect s) e]]
         (ink (currentTool s) (ctx s)) (lineWidth (ctx s))]
  /\ isDrawing s' = true
  /\ path (ctx s') = [done ++ [rel (rect s) e]]
  /\ rect s' = rect s
  /\ currentTool s' = currentTool s
  /\ lineWidth (ctx s') = lineWidth (ctx s)
  /\ ink (currentTool s') (ctx s') = ink (currentTool s) (ctx s).
Proof.
  intros D P. unfold draw, ink. rewrite D. simpl.
  destruct (currentTool s =? "eraser") eqn:T; simpl;
    unfold stroke; simpl; rewrite P, ?T; simpl; repeat split; auto.
Qed.

Lemma moves_paint ms : forall s done,
  isDrawing s = true -> path (ctx s) = [done] ->
  canvas (run s (map MouseMove ms))
  = canvas s ++
      segments done (map (rel (rect s)) ms)
        (ink (currentTool s) (ctx s)) (lineWidth (ctx s))
  /\ isDrawing (run s (map MouseMove ms)) = true.
Proof.
  induction ms as [|m ms IH]; intros s done D P.
  - simpl. rewrite app_nil_r. auto.
  - change (run s (map MouseMove (m :: ms)))
      with (run (draw m s) (map MouseMove ms)).
    destruct (draw_paints s m done D P) as (C & D' & P' & R & _ & W & K).
    destruct (IH (draw m s) _ D' P') as [C' D''].
    rewrite C', C, R, W, K, <- app_assoc.
    split; [reflexivity | exact D''].
Qed.

Lemma stroke_canvas (s : Whiteboard) (k : Stroke) :
  st_tool k <> "text" ->
  canvas (run s (stroke_events k))
  = canvas s ++
      segments [rel (rect s) (st_down k)]
        (map (rel (rect s)) (st_moves k))
        (ink (st_tool k) (ctx s)) (lineWidth (ctx s)).
Proof.
  intros T. apply String.eqb_neq in T.
  unfold stroke_events. simpl. rewrite run_app.
  set (s1 := startDrawing (st_down k) (set_currentTool (st_tool k) s)).
  assert (S1 : isDrawing s1 = true
               /\ path (ctx s1) = [[rel (rect s) (st_down k)]]
               /\ canvas s1 = canvas s /\ rect s1 = rect s
               /\ currentTool s1 = st_tool k
               /\ lineWidth (ctx s1) = lineWidth (ctx s)
               /\ strokeStyle (ctx s1) = strokeStyle (ctx s)).
  { unfold s1, startDrawing. simpl. rewrite T. simpl. repeat split. }
  destruct S1 as (D & P & C & R & Tl & W & K).
  destruct (moves_paint (st_moves k) s1 _ D P) as [C' D'].
  set (s2 := run s1 (map MouseMove (st_moves k))) in *.
  assert (E : canvas (run s2 [if st_leaves k then MouseOut else MouseUp])
              = canvas s2).
  { destruct (st_leaves k); simpl; unfold stopDrawing; rewrite D';
      reflexivity. }
  rewrite E, C', C, R, W, Tl. unfold ink. rewrite K. reflexivity.
Qed.

(** X1: a completed stroke with any tool but the text tool adds to the canvas
    one paint per pointer move and nothing else: the [n]-th paint is the
    polyline from the pointer-down point through the first [n] moves, all
    points taken from the canvas's corner, with the width of the context and
    with the stroke colour of the context, or ["#f0f0f0"] for the eraser. *)
Theorem stroke_paints (s : Whiteboard) (k : Stroke) :
  st_tool k <> "text" ->
  canvas (run s (stroke_events k))
  = canvas s ++
      segments [rel (rect s) (st_down k)]
        (map (rel (rect s)) (st_moves k))
        (ink (st_tool k) (ctx s)) (lineWidth (ctx s)).
Proof. exact (stroke_canvas s k). Qed.

Lemma stroke_paints_witness :
  canvas (run text_tool (stroke_events pencil_bar))
  = [StrokePath [[(32, 30); (32, 80)]%Z] "#ff0000" 4;
     StrokePath [[(32, 30); (32, 80); (37, 80)]%Z] "#ff0000" 4].
Proof.
  refine (stroke_paints text_tool pencil_bar _). discriminate.
Defined.

(** ** Undo and redo, once decoded *)

Lemma toDataURL_decode d : toDataURL (decode d) = d.
Proof. destruct d. reflexivity. Qed.

Lemma settle_idle s : loading s = [] -> settle s = s.
Proof. intros L. unfold settle. rewrite L. reflexivity. Qed.

Lemma undo_shown_pops s rest top :
  history s = push rest top -> loading s = [] ->
  undo_shown s
  = set_canvas (decode top)
      (set_history rest
         (set_redoHistory (push (redoHistory s) (toDataURL (canvas s))) s)).
Proof.
  destruct s. simpl. intros H L. subst.
  unfold undo_shown, undo. simpl. rewrite length_push. simpl.
  rewrite pop_push. reflexivity.
Qed.

Lemma redo_shown_pops s rest top :
  redoHistory s = push rest top -> loading s = [] ->
  redo_shown s
  = set_canvas (decode top)
      (set_redoHistory rest
         (set_history (push (history s) (toDataURL (canvas s))) s)).
Proof.
  destruct s. simpl. intros H L. subst.
  unfold redo_shown, redo. simpl. rewrite length_push. simpl.
  rewrite pop_push. reflexivity.
Qed.

Lemma redo_undoes_undo s :
  history s <> [] -> loading s = [] -> redo_shown (undo_shown s) = s.
Proof.
  intros H L. destruct (pop_nonempty _ H) as (top & rest & P).
  apply pop_inv in P. rewrite (undo_shown_pops s rest top P L).
  erewrite redo_shown_pops; [|reflexivity|exact L].
  destruct s. simpl in *. subst. rewrite toDataURL_decode. reflexivity.
Qed.

Lemma undos_unwind newer : forall s rest,
  history s = rest ++ newer -> loading s = [] ->
  let t := Nat.iter (List.length newer) undo_shown s in
  history t = rest
  /\ loading t = []
  /\ canvas t = match newer with [] => canvas s | a :: _ => decode a end
  /\ redoHistory t
     = redoHistory s ++
         match newer with
         | [] => []
         | _ :: later => toDataURL (canvas s) :: rev later
         end.
Proof.
  induction newer as [|a newer IH]; intros s rest H L; simpl.
  - rewrite app_nil_r in *. auto.
  - assert (H' : history s = (rest ++ [a]) ++ newer)
      by (rewrite <- app_assoc; exact H).
    destruct (IH s (rest ++ [a]) H' L) as (Ht & Lt & Ct & Rt).
    set (t := Nat.iter (List.length newer) undo_shown s) in *.
    rewrite (undo_shown_pops t rest a Ht Lt). simpl.
    split; [reflexivity|]. split; [exact Lt|]. split; [reflexivity|].
    rewrite Rt, Ct. unfold push. rewrite <- app_assoc.
    destruct newer as [|b later]; simpl; [reflexivity|].
    rewrite toDataURL_decode. reflexivity.
Qed.

(** X2: with nothing pending, as many undos as there are snapshots above a
    snapshot [a] of History, and one more, each decoded before the next: the
    canvas shows [a] itself, History keeps what was below [a], and
    RedoHistory has gained the canvas from before the first undo and then
    the snapshots above [a], newest first. *)
Theorem undos_show_popped (s : Whiteboard) (rest newer : list DataURL)
    (a : DataURL) :
  history s = rest ++ a :: newer -> loading s = [] ->
  let t := Nat.iter (S (List.length newer)) undo_shown s in
  canvas t = decode a
  /\ history t = rest
  /\ redoHistory t = redoHistory s ++ toDataURL (canvas s) :: rev newer.
Proof.
  intros H L. destruct (undos_unwind (a :: newer) s rest H L)
    as (Ht & _ & Ct & Rt).
  simpl in *. auto.
Qed.

Lemma undos_show_popped_witness :
  canvas (Nat.iter 2 undo_shown two_strokes)
  = [StrokePath [[(12, 30); (22, 40)]%Z] "#000000" 1]
  /\ history (Nat.iter 2 undo_shown two_strokes) = []
  /\ redoHistory (Nat.iter 2 undo_shown two_strokes)
     = [toDataURL (canvas two_strokes); toDataURL (canvas two_strokes)].
Proof.
  destruct (undos_show_popped two_strokes []
              [toDataURL (canvas two_strokes)]
              (Png [StrokePath [[(12, 30); (22, 40)]%Z] "#000000" 1])
              eq_refl eq_refl) as (C & H & R).
  split; [exact C|]. split; [exact H|exact R].
Defined.

Lemma undos_keep_idle k : forall s,
  loading s = [] -> (k <= List.length (history s))%nat ->
  loading (Nat.iter k undo_shown s) = []
  /\ List.length (history (Nat.iter k undo_shown s))
     = (List.length (history s) - k)%nat.
Proof.
  induction k as [|k IH]; intros s L K; simpl.
  - split; [exact L | lia].
  - destruct (IH s L) as [Lt Nt]; [lia|].
    set (t := Nat.iter k undo_shown s) in *.
    assert (H : history t <> [])
      by (intros E; rewrite E in Nt; simpl in Nt; lia).
    destruct (pop_nonempty _ H) as (top & rest & P). apply pop_inv in P.
    rewrite (undo_shown_pops t rest top P Lt). simpl.
    split; [exact Lt|]. rewrite P, length_push in Nt. lia.
Qed.

(** X3: with nothing pending, [k] undos followed by [k] redos, each decoded
    before the next click, bring back the whole state: the canvas, History
    and RedoHistory are what they were ([k] at most the size of History). *)
Theorem undo_redo_round_trip (s : Whiteboard) (k : nat) :
  loading s = [] -> (k <= List.length (history s))%nat ->
  Nat.iter k redo_shown (Nat.iter k undo_shown s) = s.
Proof.
  intros L. induction k as [|k IH]; intros K; [reflexivity|].
  rewrite Nat.iter_succ_r. simpl.
  destruct (undos_keep_idle k s L) as [Lt Nt]; [lia|].
  rewrite redo_undoes_undo.
  - apply IH. lia.
  - intros E. rewrite E in Nt. simpl in Nt. lia.
  - exact Lt.
Qed.

Lemma undo_redo_round_trip_witness :
  loading two_strokes = []
  /\ Nat.iter 2 redo_shown (Nat.iter 2 undo_shown two_strokes) = two_strokes.
Proof.
  split; [reflexivity|].
  refine (undo_redo_round_trip two_strokes 2 eq_refl _).
  apply le_n.
Defined.

(** ** Invariants of the page *)

Lemma addTextInput_grows x y s :
  (exists more, canvas (addTextInput x y s) = canvas s ++ more)
  /\ (exists more, history (addTextInput x y s) = history s ++ more)
  /\ (redoHistory s = [] -> redoHistory (addTextInput x y s) = []).
Proof.
  unfold addTextInput.
  destruct (textInput s) as [el|]; simpl.
  - destruct (commitText_grows s) as (C & H & R & _).
    destruct (commitText_throws s); simpl; auto.
  - repeat split; try (exists []; symmetry; apply app_nil_r); auto.
Qed.

Lemma redrawFromHistory_frame s :
  canvas (redrawFromHistory s) = canvas s
  /\ ctx (redrawFromHistory s) = ctx s
  /\ history (redrawFromHistory s) = history s
  /\ redoHistory (redrawFromHistory s) = redoHistory s
  /\ textInput (redrawFromHistory s) = textInput s
  /\ body (redrawFromHistory s) = body s
  /\ isDrawing (redrawFromHistory s) = isDrawing s.
Proof.
  unfold redrawFromHistory.
  destruct (0 <? List.length (history s))%nat; [|repeat split].
  destruct (nth_error (history s) (List.length (history s) - 1));
    repeat split.
Qed.

Lemma page_step_overlay s pe :
  overlay_shown s -> overlay_shown (page_step s pe).
Proof.
  intros B. destruct pe as [ev|r|e|e| |]; simpl.
  - apply step_overlay, B.
  - unfold resizeCanvas, overlay_shown.
    destruct (redrawFromHistory_frame
                (set_ctx ctx0 (set_canvas blank (set_rect r s))))
      as (_ & _ & _ & _ & T & Bd & _).
    rewrite T, Bd. exact B.
  - unfold touchstart. destruct (touches e) as [|t ts]; [exact B|].
    apply (step_overlay s (MouseDown _)), B.
  - unfold touchmove. destruct (touches e) as [|t ts]; [exact B|].
    apply (step_overlay s (MouseMove _)), B.
  - apply (step_overlay s MouseUp), B.
  - exact B.
Qed.

(** X4: whatever the events of the page (pointer, touch, panel, keyboard,
    decode, resize, export) after the constructor, the document holds the
    live text overlay and no other overlay: there are never two. *)
Theorem one_overlay_on_page (r : Rect) (pes : list PageEvent) :
  overlay_shown (page_run (init r) pes).
Proof.
  unfold page_run.
  generalize (init r), (eq_refl : overlay_shown (init r)).
  induction pes as [|pe pes IH]; intros s B; simpl.
  - exact B.
  - apply IH, page_step_overlay, B.
Qed.

Lemma commitText_redo s : redoHistory s = [] -> redoHistory (commitText s) = [].
Proof. apply (commitText_grows s). Qed.

Lemma step_redo_stays_empty s ev :
  ev <> UndoClick -> redoHistory s = [] -> redoHistory (step s ev) = [].
Proof.
  intros N R. destruct ev as [e|e| | |id|v|v| | |ok|v|key| |i]; simpl;
    try exact R; try congruence.
  - unfold startDrawing. simpl.
    destruct (currentTool s =? "text"); [|exact R].
    apply (addTextInput_grows _ _ (set_isDrawing true s)), R.
  - rewrite (proj2 (proj2 (draw_keeps s e))). exact R.
  - unfold stopDrawing. destruct (isDrawing s); [reflexivity|exact R].
  - unfold stopDrawing. destruct (isDrawing s); [reflexivity|exact R].
  - rewrite (redo_noop s R). exact R.
  - destruct ok; [reflexivity|exact R].
  - unfold typeText. destruct (textInput s); exact R.
  - destruct (key =? "Enter"); [apply commitText_redo|]; exact R.
  - apply (commitText_redo (set_focus None s)), R.
  - rewrite (proj2 (onload_keeps i s)). exact R.
Qed.

Lemma page_step_redo_stays_empty s pe :
  pe <> Ui UndoClick -> redoHistory s = [] -> redoHistory (page_step s pe) = [].
Proof.
  intros N R. destruct pe as [ev|r|e|e| |]; simpl.
  - apply step_redo_stays_empty; [congruence|exact R].
  - unfold resizeCanvas.
    destruct (redrawFromHistory_frame
                (set_ctx ctx0 (set_canvas blank (set_rect r s))))
      as (_ & _ & _ & R' & _).
    rewrite R'. exact R.
  - unfold touchstart. destruct (touches e) as [|t ts]; [exact R|].
    apply (step_redo_stays_empty s (MouseDown _)); [discriminate|exact R].
  - unfold touchmove. destruct (touches e) as [|t ts]; [exact R|].
    apply (step_redo_stays_empty s (MouseMove _)); [discriminate|exact R].
  - apply (step_redo_stays_empty s MouseUp); [discriminate|exact R].
  - exact R.
Qed.

(** X5: after the constructor, as long as undo has not been clicked,
    RedoHistory is empty whatever else happens on the page, and a click on
    redo changes nothing. *)
Theorem redo_needs_undo (r : Rect) (pes : list PageEvent) :
  Forall (fun pe => pe <> Ui UndoClick) pes ->
  redoHistory (page_run (init r) pes) = []
  /\ redo (page_run (init r) pes) = page_run (init r) pes.
Proof.
  intros F.
  assert (R : redoHistory (page_run (init r) pes) = []).
  { unfold page_run.
    generalize (init r), (eq_refl : redoHistory (init r) = []).
    induction F as [|pe pes N F IH]; intros s R; simpl.
    - exact R.
    - apply IH, page_step_redo_stays_empty; assumption. }
  split; [exact R | apply redo_noop, R].
Qed.

Lemma redo_needs_undo_witness :
  redoHistory
    (page_run (init page)
       [Ui (MouseDown (at_ 20 100)); Ui (MouseMove (at_ 30 110)); Ui MouseUp;
        Resize page; Ui (ClearClick true); Ui RedoClick; SaveClick])
  = [].
Proof.
  refine (proj1 (redo_needs_undo page _ _)).
  repeat constructor; discriminate.
Defined.

Lemma commitText_appends s : exists more, canvas (commitText s) = canvas s ++ more.
Proof. apply (commitText_grows s). Qed.

Lemma step_appends s ev :
  keeps_paint (Ui ev) = true ->
  exists more, canvas (step s ev) = canvas s ++ more.
Proof.
  assert (Z : exists more, canvas s = canvas s ++ more)
    by (exists []; symmetry; apply app_nil_r).
  intros K. destruct ev as [e|e| | |id|v|v| | |ok|v|key| |i]; simpl;
    try exact Z; try discriminate.
  - unfold startDrawing. simpl.
    destruct (currentTool s =? "text"); [|exact Z].
    apply (addTextInput_grows _ _ (set_isDrawing true s)).
  - unfold draw. destruct (isDrawing s); simpl; [|exact Z].
    destruct (currentTool s =? "eraser"); simpl; unfold stroke; eauto.
  - unfold stopDrawing. destruct (isDrawing s); exact Z.
  - unfold stopDrawing. destruct (isDrawing s); exact Z.
  - unfold undo. destruct (0 <? List.length (history s))%nat; [|exact Z].
    simpl. destruct (pop (history s)) as [[top rest]|]; exact Z.
  - unfold redo. destruct (0 <? List.length (redoHistory s))%nat; [|exact Z].
    simpl. destruct (pop (redoHistory s)) as [[top rest]|]; exact Z.
  - destruct ok; [discriminate|exact Z].
  - unfold typeText. destruct (textInput s); exact Z.
  - destruct (key =? "Enter"); [apply commitText_appends|exact Z].
  - apply (commitText_appends (set_focus None s)).
Qed.

Lemma page_step_appends s pe :
  keeps_paint pe = true ->
  exists more, canvas (page_step s pe) = canvas s ++ more.
Proof.
  intros K. destruct pe as [ev|r|e|e| |]; simpl.
  - apply step_appends, K.
  - discriminate.
  - unfold touchstart. destruct (touches e) as [|t ts].
    + exists []. symmetry. apply app_nil_r.
    + apply (step_appends s (MouseDown _)). reflexivity.
  - unfold touchmove. destruct (touches e) as [|t ts].
    + exists []. symmetry. apply app_nil_r.
    + apply (step_appends s (MouseMove _)). reflexivity.
  - apply (step_appends s MouseUp). reflexivity.
  - exists []. symmetry. apply app_nil_r.
Qed.

(** X6: paint is only ever added, except by a confirmed clear, by the blit of
    a decoded image and by a resize: through any other events of the page,
    what the canvas showed before is still there, under what was painted
    since. *)
Theorem paint_is_kept (s : Whiteboard) (pes : list PageEvent) :
  forallb keeps_paint pes = true ->
  exists more, canvas (page_run s pes) = canvas s ++ more.
Proof.
  unfold page_run. revert s.
  induction pes as [|pe pes IH]; intros s K; simpl in *.
  - exists []. symmetry. apply app_nil_r.
  - apply andb_prop in K as [K K'].
    destruct (page_step_appends s pe K) as [m1 E1].
    destruct (IH (page_step s pe) K') as [m2 E2].
    exists (m1 ++ m2). rewrite E2, E1, app_assoc. reflexivity.
Qed.

Lemma paint_is_kept_witness :
  exists more,
    canvas
      (page_run one_stroke
         [Ui (ToolClick "text"); TouchStart (fingers (at_ 58 130, []));
          TouchEnd; Ui (Typed "Hi"); Ui Blur; Ui UndoClick;
          Ui (ClearClick false); SaveClick])
    = canvas one_stroke ++ more.
Proof.
  refine (paint_is_kept one_stroke _ _). reflexivity.
Defined.

Lemma page_step_idle s pe :
  idle pe = true -> isDrawing s = false -> page_step s pe = s.
Proof.
  intros I D.
  destruct pe as [[e|e| | |id|v|v| | |ok|v|key| |i]|r|e|e| |];
    try discriminate; simpl.
  - unfold draw. rewrite D. reflexivity.
  - unfold stopDrawing. rewrite D. reflexivity.
  - unfold stopDrawing. rewrite D. reflexivity.
  - unfold touchmove. destruct (touches e); [reflexivity|].
    unfold draw. rewrite D. reflexivity.
  - unfold touchend, stopDrawing. rewrite D. reflexivity.
  - reflexivity.
Qed.

(** X7: while no stroke is under way, pointer moves, pointer-ups, the
    pointer leaving the canvas, touch moves and touch ends change nothing at
    all: no paint, no snapshot, the redo stack untouched. *)
Theorem hovering_changes_nothing (s : Whiteboard) (pes : list PageEvent) :
  isDrawing s = false -> forallb idle pes = true -> page_run s pes = s.
Proof.
  intros D. unfold page_run.
  induction pes as [|pe pes IH]; intros I; simpl in *; [reflexivity|].
  apply andb_prop in I as [I I'].
  rewrite (page_step_idle s pe I D). apply IH, I'.
Qed.

Lemma hovering_changes_nothing_witness :
  page_run after_undo
    [Ui (MouseMove (at_ 5 5)); Ui MouseOut; TouchMove (fingers (at_ 1 2, []));
     TouchEnd; Ui MouseUp]
  = after_undo.
Proof.
  exact (hovering_changes_nothing after_undo
           [Ui (MouseMove (at_ 5 5)); Ui MouseOut;
            TouchMove (fingers (at_ 1 2, [])); TouchEnd; Ui MouseUp]
           eq_refl eq_refl).
Defined.

(** ** Commits of the text overlay *)

(** X8: a stroke ended by [mouseup] is not committed again when the pointer
    then leaves the canvas; and when a call of [commitText] has come to its
    end, whichever way, the field [textInput] is null and a further call of
    [commitText] changes nothing. *)
Theorem commits_happen_once (s : Whiteboard) :
  run s [MouseUp; MouseOut] = run s [MouseUp]
  /\ textInput (commitText s) = None
  /\ commitText (commitText s) = commitText s.
Proof.
  split; [|split].
  - simpl. unfold stopDrawing at 1.
    destruct (isDrawing (stopDrawing s)) eqn:D; [|reflexivity].
    unfold stopDrawing in D. destruct (isDrawing s) eqn:D'; simpl in D;
      congruence.
  - apply commitText_drops.
  - apply commitText_none, commitText_drops.
Qed.

(** X19: the two ways of committing a live overlay.  By loss of focus, an
    overlay that holds text is painted once, where it was recorded less the
    corner of the canvas, and one snapshot of the result is pushed.  By the
    Enter key, while it holds the focus, it is painted twice there and two
    snapshots are pushed, the second commit being the one of the [blur] that
    [remove()] fires.  An empty overlay paints and pushes nothing.  In every
    case the field is null and the overlay is out of the document. *)
Theorem text_commit_paths (s : Whiteboard) (el : TextInput) :
  textInput s = Some el ->
  (value el <> "" ->
     canvas (step s Blur) = canvas s ++ [text_paint el (rect s)]
     /\ history (step s Blur)
        = history s ++ [toDataURL (canvas s ++ [text_paint el (rect s)])]
     /\ (focus s = Some (node el) ->
           canvas (step s (KeyDown "Enter"))
           = canvas s ++ [text_paint el (rect s); text_paint el (rect s)]
           /\ history (step s (KeyDown "Enter"))
              = history s ++
                  [toDataURL (canvas s ++ [text_paint el (rect s)]);
                   toDataURL
                     (canvas s ++
                        [text_paint el (rect s); text_paint el (rect s)])]))
  /\ (value el = "" ->
        canvas (step s Blur) = canvas s
        /\ history (step s Blur) = history s
        /\ canvas (step s (KeyDown "Enter")) = canvas s
        /\ history (step s (KeyDown "Enter")) = history s)
  /\ (forall ev, ev = Blur \/ ev = KeyDown "Enter" ->
        textInput (step s ev) = None /\ ~ In (node el) (body (step s ev))).
Proof.
  intros T. split; [|split].
  - intros V. split; [|split].
    + rewrite (blur_commit s el T).
      rewrite (paintText_filled (set_focus None s) el T V). reflexivity.
    + rewrite (blur_commit s el T).
      rewrite (paintText_filled (set_focus None s) el T V). reflexivity.
    + intros F. rewrite (enter_commit s el T F).
      rewrite (paintText_filled s el T V).
      rewrite (paintText_filled (set_focus None (renderText el s)) el T V).
      simpl. unfold fillText, push. simpl. rewrite <- !app_assoc.
      split; reflexivity.
  - intros V. simpl. rewrite !commitText_eq. simpl. rewrite T.
    rewrite (paintText_empty (set_focus None s) el T V).
    rewrite (paintText_empty s el T V).
    rewrite (paintText_empty (set_focus None s) el T V).
    destruct (focused el s), (focused el (set_focus None s)); simpl; auto.
  - intros ev [E|E]; subst ev; simpl; rewrite commitText_eq; simpl;
      rewrite T; split; try reflexivity; apply remove_node_gone.
Qed.

Lemma text_commit_paths_witness :
  canvas (step typing_hi Blur)
  = [FillText "Hi" 42 (-10) {| font_px := 5; font_family := "Arial" |}
       "#ff0000"]
  /\ canvas (step typing_hi (KeyDown "Enter"))
     = [FillText "Hi" 42 (-10) {| font_px := 5; font_family := "Arial" |}
          "#ff0000";
        FillText "Hi" 42 (-10) {| font_px := 5; font_family := "Arial" |}
          "#ff0000"]
  /\ history (step typing_nothing (KeyDown "Enter")) = history typing_nothing.
Proof.
  destruct (text_commit_paths typing_hi _ eq_refl) as (F & _ & _).
  destruct F as (B & _ & E); [discriminate|].
  destruct (E eq_refl) as [C _].
  destruct (text_commit_paths typing_nothing _ eq_refl) as (_ & N & _).
  destruct (N eq_refl) as (_ & _ & _ & H).
  split; [exact B|]. split; [exact C|exact H].
Defined.

(** ** The text tool, from the click to the paint *)

(** X9: a pointer-down with the text tool while an overlay is open and holds
    the focus opens no new overlay.  The open overlay is committed as by the
    Enter key (painted twice with two snapshots pushed and RedoHistory
    emptied if it holds text, nothing painted or pushed if it is empty), the
    exception of its [remove()] leaves [addTextInput], and afterwards there
    is no overlay at all, while [isDrawing] is set. *)
Theorem text_click_replaces_overlay
    (s : Whiteboard) (e : MouseEvent) (el : TextInput) :
  currentTool s = "text" -> textInput s = Some el ->
  focus s = Some (node el) -> overlay_shown s ->
  let s' := step s (MouseDown e) in
  (value el <> "" ->
     canvas s'
     = canvas s ++ [text_paint el (rect s); text_paint el (rect s)]
     /\ history s'
        = history s ++
            [toDataURL (canvas s ++ [text_paint el (rect s)]);
             toDataURL
               (canvas s ++ [text_paint el (rect s); text_paint el (rect s)])]
     /\ redoHistory s' = [])
  /\ (value el = "" -> canvas s' = canvas s /\ history s' = history s)
  /\ textInput s' = None
  /\ body s' = []
  /\ isDrawing s' = true.
Proof.
  intros Tl T F B. unfold overlay_shown in B. rewrite T in B.
  assert (G : filter (fun m => negb (m =? node el)%nat) (body s) = [])
    by (rewrite B; simpl; rewrite Nat.eqb_refl; reflexivity).
  assert (E : step s (MouseDown e)
              = set_textInput None
                  (remove_node (node el)
                     (paintText
                        (set_focus None
                           (paintText (set_isDrawing true s)))))).
  { simpl. unfold startDrawing. simpl. rewrite Tl. simpl.
    unfold addTextInput, commitText_throws. simpl. rewrite T.
    unfold focused. simpl. rewrite F, Nat.eqb_refl.
    rewrite commitText_eq. simpl. rewrite T. unfold focused. simpl.
    rewrite F, Nat.eqb_refl. reflexivity. }
  cbv zeta. rewrite E. clear E.
  destruct (string_dec (value el) "") as [V|V].
  - rewrite (paintText_empty (set_isDrawing true s) el T V).
    rewrite (paintText_empty (set_focus None (set_isDrawing true s)) el T V).
    simpl. rewrite G. split; [congruence|]. auto.
  - rewrite (paintText_filled (set_isDrawing true s) el T V).
    rewrite (paintText_filled
               (set_focus None (renderText el (set_isDrawing true s))) el T V).
    simpl. rewrite G. unfold fillText, push. simpl. rewrite <- !app_assoc.
    split; [auto|]. split; [congruence|]. auto.
Qed.

Lemma text_click_replaces_overlay_witness :
  canvas (step typing_hi (MouseDown (at_ 108 170)))
  = [FillText "Hi" 42 (-10) {| font_px := 5; font_family := "Arial" |}
       "#ff0000";
     FillText "Hi" 42 (-10) {| font_px := 5; font_family := "Arial" |}
       "#ff0000"]
  /\ textInput (step typing_hi (MouseDown (at_ 108 170))) = None
  /\ body (step typing_hi (MouseDown (at_ 108 170))) = []
  /\ history (step typing_nothing (MouseDown (at_ 108 170)))
     = history typing_nothing.
Proof.
  destruct (text_click_replaces_overlay typing_hi (at_ 108 170) _
              eq_refl eq_refl eq_refl eq_refl) as (F & _ & T & B & _).
  destruct F as (C & _ & _); [discriminate|].
  destruct (text_click_replaces_overlay typing_nothing (at_ 108 170) _
              eq_refl eq_refl eq_refl eq_refl) as (_ & N & _).
  destruct (N eq_refl) as [_ H].
  split; [exact C|]. split; [exact T|]. split; [exact B|exact H].
Defined.

(** X10: placing a text from scratch with the text tool (pointer-down,
    pointer-up, typing, Enter) paints it twice, in the stroke colour and at
    five times the line width, at the pointer's client position less twice
    the offset of the canvas, and pushes three snapshots: the untouched
    canvas at the pointer-up, the canvas with the text painted once, and the
    canvas with the text painted twice.  No overlay is left. *)
Theorem text_placement (s : Whiteboard) (e : MouseEvent) (v : string) :
  currentTool s = "text" -> textInput s = None -> v <> "" ->
  let s' := run s [MouseDown e; MouseUp; Typed v; KeyDown "Enter"] in
  let paint :=
    FillText v
      (clientX e - rect_left (rect s) - rect_left (rect s))
      (clientY e - rect_top (rect s) - rect_top (rect s))
      {| font_px := lineWidth (ctx s) * 5; font_family := "Arial" |}
      (strokeStyle (ctx s)) in
  canvas s' = canvas s ++ [paint; paint]
  /\ history s'
     = history s ++
         [toDataURL (canvas s); toDataURL (canvas s ++ [paint]);
          toDataURL (canvas s ++ [paint; paint])]
  /\ redoHistory s' = []
  /\ textInput s' = None
  /\ isDrawing s' = false.
Proof.
  intros Tl T V. destruct s. simpl in Tl, T. subst.
  destruct v as [|a v]; [congruence|].
  unfold run, push. simpl. unfold commitText, focused. simpl.
  rewrite Nat.eqb_refl. simpl. unfold push, fillText. simpl.
  rewrite <- !app_assoc. repeat split.
Qed.

Lemma text_placement_witness :
  canvas (run text_tool
            [MouseDown (at_ 58 130); MouseUp; Typed "Hi"; KeyDown "Enter"])
  = [FillText "Hi" 42 (-10) {| font_px := 20; font_family := "Arial" |}
       "#ff0000";
     FillText "Hi" 42 (-10) {| font_px := 20; font_family := "Arial" |}
       "#ff0000"]
  /\ List.length
       (history
          (run text_tool
             [MouseDown (at_ 58 130); MouseUp; Typed "Hi"; KeyDown "Enter"]))
     = 3%nat.
Proof.
  destruct (text_placement text_tool (at_ 58 130) "Hi" eq_refl eq_refl)
    as (C & H & _); [discriminate|].
  split; [exact C|]. cbv zeta in H. rewrite H. reflexivity.
Defined.

(** X11: with the text tool, a pointer-down begins no path but a pointer
    move that follows it paints all the same: the path left by the last
    stroke is extended to the pointer and stroked again as a whole. *)
Theorem text_drag_paints (s : Whiteboard) (e e' : MouseEvent) :
  currentTool s = "text" -> textInput s = None ->
  canvas (run s [MouseDown e; MouseMove e'])
  = canvas s ++
      [StrokePath (extend (path (ctx s)) (rel (rect s) e'))
         (strokeStyle (ctx s)) (lineWidth (ctx s))].
Proof.
  intros Tl T. destruct s. simpl in Tl, T. subst. reflexivity.
Qed.

Lemma text_drag_paints_witness :
  canvas (run (run one_stroke [ToolClick "text"])
            [MouseDown (at_ 58 130); MouseMove (at_ 68 130)])
  = [StrokePath [[(12, 30); (22, 40)]%Z] "#000000" 2;
     StrokePath [[(12, 30); (22, 40); (60, 60)]%Z] "#000000" 2].
Proof.
  exact (text_drag_paints (run one_stroke [ToolClick "text"])
           (at_ 58 130) (at_ 68 130) eq_refl eq_refl).
Defined.

(** ** Resize *)

Lemma nth_error_last {A : Type} (a : list A) (x : A) :
  nth_error (push a x) (List.length (push a x) - 1) = Some x.
Proof.
  rewrite length_push. unfold push.
  rewrite nth_error_app2 by lia.
  replace (S (List.length a) - 1 - List.length a)%nat with 0%nat by lia.
  reflexivity.
Qed.

Lemma resizeCanvas_effect (s : Whiteboard) (r : Rect) :
  let s' := resizeCanvas r s in
  canvas s' = blank
  /\ ctx s' = ctx0
  /\ history s' = history s
  /\ redoHistory s' = redoHistory s
  /\ (history s = [] -> loading s' = loading s)
  /\ (forall rest top,
        history s = push rest top -> loading s' = loading s ++ [top]).
Proof.
  simpl. unfold resizeCanvas.
  destruct (redrawFromHistory_frame
              (set_ctx ctx0 (set_canvas blank (set_rect r s))))
    as (C & X & H & R & _).
  rewrite C, X, H, R. simpl.
  repeat (split; [reflexivity|]). split.
  - intros E. unfold redrawFromHistory. simpl. rewrite E. reflexivity.
  - intros rest top E. unfold redrawFromHistory. simpl. rewrite E.
    rewrite nth_error_last, length_push. reflexivity.
Qed.

(** X12: a resize blanks the canvas and puts the context back to its
    defaults, leaves History and RedoHistory as they are, and asks for one
    decode, that of the newest snapshot of History, which stays on the
    stack; with an empty History it asks for none. *)
Theorem resize_redraws_latest (s : Whiteboard) (r : Rect) :
  let s' := resizeCanvas r s in
  canvas s' = blank
  /\ ctx s' = ctx0
  /\ history s' = history s
  /\ redoHistory s' = redoHistory s
  /\ (history s = [] -> loading s' = loading s)
  /\ (forall rest top,
        history s = push rest top -> loading s' = loading s ++ [top]).
Proof. exact (resizeCanvas_effect s r). Qed.

Lemma resize_redraws_latest_witness :
  loading (resizeCanvas page (init page)) = []
  /\ loading (resizeCanvas page one_stroke)
     = [Png [StrokePath [[(12, 30); (22, 40)]%Z] "#000000" 2]].
Proof.
  split.
  - exact (proj1 (proj2 (proj2 (proj2 (proj2
             (resize_redraws_latest (init page) page))))) eq_refl).
  - exact (proj2 (proj2 (proj2 (proj2 (proj2
             (resize_redraws_latest one_stroke page))))) [] _ eq_refl).
Defined.



(** ** Export *)

(** X14: the file handed to the browser is named [whiteboard.png] and holds
    the canvas as it is at the click: the image decodes to the canvas, text
    still in the overlay is not in it, and neither is a snapshot whose
    restore has been asked for by undo or redo but is not decoded yet. *)
Theorem export_is_the_canvas (s : Whiteboard) (v : string) :
  download (saveCanvas s) = "whiteboard.png"
  /\ decode (href (saveCanvas s)) = canvas s
  /\ saveCanvas (typeText v s) = saveCanvas s
  /\ saveCanvas (undo s) = saveCanvas s
  /\ saveCanvas (redo s) = saveCanvas s.
Proof.
  split; [reflexivity|]. split; [reflexivity|]. unfold saveCanvas.
  split; [|split].
  - unfold typeText. destruct (textInput s); reflexivity.
  - unfold undo. destruct (0 <? List.length (history s))%nat; [|reflexivity].
    simpl. destruct (pop (history s)) as [[top rest]|]; reflexivity.
  - unfold redo.
    destruct (0 <? List.length (redoHistory s))%nat; [|reflexivity].
    simpl. destruct (pop (redoHistory s)) as [[top rest]|]; reflexivity.
Qed.

(** ** Touch *)

Lemma touch_moves_are_mouse_moves ms : forall s,
  page_run s (map (fun m => TouchMove (fingers m)) ms ++ [TouchEnd])
  = run s (map (fun m => MouseMove (fst m)) ms ++ [MouseUp]).
Proof.
  induction ms as [|m ms IH]; intros s; [reflexivity|].
  simpl. rewrite IH. reflexivity.
Qed.

(** X15: a touch gesture (touch start, touch moves, touch end) leaves the
    board exactly as the mouse gesture through the first point of contact of
    each event does; the other fingers count for nothing. *)
Theorem touch_follows_first_finger
    (s : Whiteboard) (d : MouseEvent * list MouseEvent)
    (ms : list (MouseEvent * list MouseEvent)) :
  page_run s
    (TouchStart (fingers d)
       :: map (fun m => TouchMove (fingers m)) ms ++ [TouchEnd])
  = run s (MouseDown (fst d) :: map (fun m => MouseMove (fst m)) ms ++ [MouseUp]).
Proof.
  simpl. rewrite touch_moves_are_mouse_moves. reflexivity.
Qed.

(** ** Strokes, snapshots and pending decodes *)

Lemma moves_keep_loading ms : forall s,
  loading (run s (map MouseMove ms)) = loading s.
Proof.
  induction ms as [|m ms IH]; intros s; [reflexivity|].
  change (run s (map MouseMove (m :: ms)))
    with (run (draw m s) (map MouseMove ms)).
  rewrite IH. unfold draw. destruct (isDrawing s); [|reflexivity].
  destruct (currentTool s =? "eraser"); reflexivity.
Qed.

Lemma stroke_commit_state (s : Whiteboard) (k : Stroke) :
  st_tool k <> "text" ->
  let s' := run s (stroke_events k) in
  history s' = push (history s) (toDataURL (canvas s'))
  /\ redoHistory s' = []
  /\ isDrawing s' = false
  /\ loading s' = loading s.
Proof.
  intros T. simpl. unfold stroke_events. simpl. rewrite run_app.
  set (s1 := startDrawing (st_down k) (set_currentTool (st_tool k) s)).
  destruct (startDrawing_stroke (set_currentTool (st_tool k) s) (st_down k) T)
    as (I & H & _). fold s1 in I, H. simpl in H.
  assert (L : loading s1 = loading s).
  { unfold s1, startDrawing. simpl. apply String.eqb_neq in T. rewrite T.
    reflexivity. }
  destruct (moves_keep (st_moves k) s1) as (I' & H' & _).
  pose proof (moves_keep_loading (st_moves k) s1) as L'.
  set (s2 := run s1 (map MouseMove (st_moves k))) in *.
  assert (E : run s2 [if st_leaves k then MouseOut else MouseUp]
              = saveState (set_isDrawing false s2)).
  { destruct (st_leaves k); simpl; unfold stopDrawing;
      rewrite I', I; reflexivity. }
  rewrite E. simpl. rewrite H', H, L', L. auto.
Qed.

(** X16: the snapshot that a completed stroke pushes is the one of the
    canvas with the stroke on it; RedoHistory is emptied, the stroke is over
    and the pending decodes are as they were. *)
Theorem stroke_snapshot (s : Whiteboard) (k : Stroke) :
  st_tool k <> "text" ->
  let s' := run s (stroke_events k) in
  history s' = push (history s) (toDataURL (canvas s'))
  /\ redoHistory s' = []
  /\ isDrawing s' = false
  /\ loading s' = loading s.
Proof. exact (stroke_commit_state s k). Qed.

Lemma stroke_snapshot_witness :
  history (run one_stroke (stroke_events eraser_rub))
  = [toDataURL (canvas one_stroke);
     toDataURL (canvas (run one_stroke (stroke_events eraser_rub)))].
Proof.
  refine (proj1 (stroke_snapshot one_stroke eraser_rub _)). discriminate.
Defined.

(** X17: a stroke drawn after a click on undo but before the decode of the
    popped snapshot is wiped from the canvas when that decode ends: the
    canvas then shows the popped snapshot alone, while the snapshot with the
    stroke stays on top of History and RedoHistory is empty. *)
Theorem stroke_before_decode_is_wiped
    (s : Whiteboard) (k : Stroke) (rest : list DataURL) (top : DataURL) :
  st_tool k <> "text" -> history s = push rest top -> loading s = [] ->
  let drawn := run (undo s) (stroke_events k) in
  canvas drawn
  = canvas s ++
      segments [rel (rect s) (st_down k)] (map (rel (rect s)) (st_moves k))
        (ink (st_tool k) (ctx s)) (lineWidth (ctx s))
  /\ canvas (settle drawn) = decode top
  /\ history (settle drawn) = push rest (toDataURL (canvas drawn))
  /\ redoHistory (settle drawn) = [].
Proof.
  intros T H L. cbv zeta.
  assert (U : undo s
              = redrawFromData top
                  (set_history rest
                     (set_redoHistory
                        (push (redoHistory s) (toDataURL (canvas s))) s))).
  { unfold undo. rewrite H, length_push. simpl. rewrite H, pop_push.
    reflexivity. }
  assert (F : history (undo s) = rest /\ canvas (undo s) = canvas s
              /\ rect (undo s) = rect s /\ ctx (undo s) = ctx s
              /\ loading (undo s) = [top]).
  { rewrite U. simpl. rewrite L. repeat split. }
  destruct F as (Fh & Fc & Fr & Fx & Fl).
  destruct (stroke_commit_state (undo s) k T) as (Hs & Rs & _ & Ls).
  pose proof (stroke_canvas (undo s) k T) as P.
  cbv zeta in Hs, Rs, Ls.
  set (drawn := run (undo s) (stroke_events k)) in *.
  rewrite Fh in Hs. rewrite Fl in Ls. rewrite Fc, Fr, Fx in P.
  split; [exact P|].
  split; [apply (settle_shows_last [] drawn top), Ls|].
  unfold settle.
  destruct (decoded_keeps (List.length (loading drawn)) drawn) as [Hd Rd].
  rewrite Hd, Rd. auto.
Qed.

Lemma stroke_before_decode_is_wiped_witness :
  canvas (settle (run (undo after_undo) (stroke_events eraser_rub)))
  = [StrokePath [[(12, 30); (22, 40)]%Z] "#000000" 1]
  /\ redoHistory (settle (run (undo after_undo) (stroke_events eraser_rub)))
     = [].
Proof.
  destruct (stroke_before_decode_is_wiped after_undo eraser_rub []
              (Png [StrokePath [[(12, 30); (22, 40)]%Z] "#000000" 1]))
    as (_ & C & _ & R); [discriminate|reflexivity|reflexivity|].
  split; [exact C|exact R].
Defined.

(** ** History only shrinks by undo *)

Lemma step_history_grows s ev :
  ev <> UndoClick -> exists more, history (step s ev) = history s ++ more.
Proof.
  assert (Z : exists more, history s = history s ++ more)
    by (exists []; symmetry; apply app_nil_r).
  assert (CT : forall t, exists more,
             history (commitText t) = history t ++ more)
    by (intros t; apply (commitText_grows t)).
  intros N. destruct ev as [e|e| | |id|v|v| | |ok|v|key| |i]; simpl;
    try exact Z; try congruence.
  - unfold startDrawing. simpl.
    destruct (currentTool s =? "text"); [|exact Z].
    apply (addTextInput_grows _ _ (set_isDrawing true s)).
  - rewrite (proj1 (proj2 (draw_keeps s e))). exact Z.
  - unfold stopDrawing. destruct (isDrawing s); [|exact Z].
    eexists. reflexivity.
  - unfold stopDrawing. destruct (isDrawing s); [|exact Z].
    eexists. reflexivity.
  - unfold redo. destruct (0 <? List.length (redoHistory s))%nat; [|exact Z].
    simpl. destruct (pop (redoHistory s)) as [[top rest]|]; simpl;
      eexists; reflexivity.
  - destruct ok; [|exact Z]. eexists. reflexivity.
  - unfold typeText. destruct (textInput s); exact Z.
  - destruct (key =? "Enter"); [apply CT|exact Z].
  - apply (CT (set_focus None s)).
  - rewrite (proj1 (onload_keeps i s)). exact Z.
Qed.

Lemma page_step_history_grows s pe :
  pe <> Ui UndoClick ->
  exists more, history (page_step s pe) = history s ++ more.
Proof.
  intros N. destruct pe as [ev|r|e|e| |]; simpl.
  - apply step_history_grows. congruence.
  - destruct (resizeCanvas_effect s r) as (_ & _ & H & _).
    simpl in H. rewrite H. exists []. symmetry. apply app_nil_r.
  - unfold touchstart. destruct (touches e) as [|t ts].
    + exists []. symmetry. apply app_nil_r.
    + apply (step_history_grows s (MouseDown _)). discriminate.
  - unfold touchmove. destruct (touches e) as [|t ts].
    + exists []. symmetry. apply app_nil_r.
    + apply (step_history_grows s (MouseMove _)). discriminate.
  - apply (step_history_grows s MouseUp). discriminate.
  - exists []. symmetry. apply app_nil_r.
Qed.

(** X18: no event of the page but a click on undo drops or rewrites a
    snapshot of History: through any other events, History is what it was
    with, possibly, more snapshots on top. *)
Theorem history_only_shrinks_by_undo (s : Whiteboard) (pes : list PageEvent) :
  Forall (fun pe => pe <> Ui UndoClick) pes ->
  exists more, history (page_run s pes) = history s ++ more.
Proof.
  intros F. unfold page_run. revert s.
  induction F as [|pe pes N F IH]; intros s; simpl.
  - exists []. symmetry. apply app_nil_r.
  - destruct (page_step_history_grows s pe N) as [m1 E1].
    destruct (IH (page_step s pe)) as [m2 E2].
    exists (m1 ++ m2). rewrite E2, E1, app_assoc. reflexivity.
Qed.

Lemma history_only_shrinks_by_undo_witness :
  exists more,
    history
      (page_run after_undo
         [Ui RedoClick; Ui (ImageLoad 0); Resize page; Ui (ClearClick true);
          TouchStart (fingers (at_ 20 100, [at_ 90 90])); TouchEnd])
    = history after_undo ++ more.
Proof.
  refine (history_only_shrinks_by_undo after_undo _ _).
  repeat constructor; discriminate.
Defined.
